(** * Pipable: the orchestrator of [pipable/pipable.py]

    A shallow embedding of class [Pipable]: the connection life cycle
    ([connect], [disconnect]), the schema-context builder
    ([_generate_create_table_statements]), the query generation glue
    ([_generate_sql_query]) and the entry point [ask].

    The two collaborators of the class, [DatabaseConnectorInterface] and
    [LlmApiClientInterface], are interfaces in the source; here they are
    type classes over an arbitrary world [W], so that every theorem holds
    for every connector and every language-model client. *)

From Stdlib Require Import String Ascii List Bool Arith ZArith Lia.
Import ListNotations.
Local Open Scope list_scope.
Local Open Scope string_scope.

Set Implicit Arguments.

(** ** Python values the class handles *)

(** A Python [str] is modelled by a Rocq [string], one [ascii] per code
    point (code points below 256). *)

Definition nl : string := String (ascii_of_nat 10) EmptyString.

(** [str.isspace] on one character, for code points below 256: tab, line
    feed, vertical tab, form feed, carriage return, the separators
    0x1c..0x1f, space, NEL (0x85) and NBSP (0xa0). *)
Definition isspace (c : ascii) : bool :=
  let n := nat_of_ascii c in
  (((9 <=? n) && (n <=? 13)) || ((28 <=? n) && (n <=? 32))
   || (n =? 133) || (n =? 160))%nat.

(** [s.lstrip()] *)
Fixpoint lstrip (s : string) : string :=
  match s with
  | EmptyString => EmptyString
  | String c s' => if isspace c then lstrip s' else s
  end.

(** [s.rstrip()] *)
Fixpoint rstrip (s : string) : string :=
  match s with
  | EmptyString => EmptyString
  | String c s' =>
      match rstrip s' with
      | EmptyString => if isspace c then EmptyString else String c EmptyString
      | t => String c t
      end
  end.

(** [s.strip()] *)
Definition strip (s : string) : string := rstrip (lstrip s).

(** [sep.join(l)] *)
Fixpoint join (sep : string) (l : list string) : string :=
  match l with
  | [] => ""
  | [x] => x
  | x :: rest => x ++ sep ++ join sep rest
  end.

(** Every character of [s] is white space. *)
Fixpoint all_space (s : string) : bool :=
  match s with
  | EmptyString => true
  | String c s' => isspace c && all_space s'
  end.

(** The first and the last character of a string. *)
Definition first_char (s : string) : option ascii :=
  match s with
  | EmptyString => None
  | String c _ => Some c
  end.

Fixpoint last_char (s : string) : option ascii :=
  match s with
  | EmptyString => None
  | String c EmptyString => Some c
  | String _ s' => last_char s'
  end.

(** [s] neither starts nor ends with white space. *)
Definition trimmed (s : string) : Prop :=
  (forall c, first_char s = Some c -> isspace c = false) /\
  (forall c, last_char s = Some c -> isspace c = false).

(** Exceptions: the class of the exception and [str(e)].  Every kind here
    derives from [Exception], which is what the handlers of the class
    catch. *)
Inductive ExcKind : Type :=
| ConnectionError
| ValueError
| NameError
| KeyError
| PyException                  (* the base class [Exception] itself *)
| OtherError (name : string).  (* any other subclass, raised by a collaborator *)

Record Exc : Type := mkExc { exc_kind : ExcKind; exc_str : string }.

Definition result (A : Type) : Type := (Exc + A)%type.

(** The truth value of what [generate_text] returns: [None] and the empty
    string are falsy. *)
Definition truthy (v : option string) : bool :=
  match v with
  | None => false
  | Some EmptyString => false
  | Some _ => true
  end.

(** ** The part of pandas the class uses *)

(** A [DataFrame]: column labels and rows of cells.  Cells are strings,
    which is what [information_schema.columns] holds in the three columns
    the class reads. *)
Record DataFrame : Type := mkDataFrame {
  df_columns : list string;
  df_rows : list (list string)
}.

Fixpoint index_of (label : string) (cols : list string) : option nat :=
  match cols with
  | [] => None
  | c :: cs => if String.eqb c label then Some 0
               else option_map S (index_of label cs)
  end.

(** [row[label]]: [KeyError] when the label is not a column. *)
Definition getitem (cols : list string) (row : list string) (label : string)
  : result string :=
  match index_of label cols with
  | Some i =>
      match nth_error row i with
      | Some v => inr v
      | None => inl (mkExc KeyError ("'" ++ label ++ "'"))
      end
  | None => inl (mkExc KeyError ("'" ++ label ++ "'"))
  end.

(** The sorted, duplicate-free group keys ([groupby] sorts its keys). *)
Fixpoint insert_key (k : string) (ks : list string) : list string :=
  match ks with
  | [] => [k]
  | k' :: rest =>
      match String.compare k k' with
      | Lt => k :: ks
      | Eq => ks
      | Gt => k' :: insert_key k rest
      end
  end.

Definition group_keys (keys : list string) : list string :=
  fold_right insert_key [] keys.

Fixpoint mapM {A B : Type} (f : A -> result B) (l : list A) : result (list B) :=
  match l with
  | [] => inr []
  | x :: xs =>
      match f x with
      | inl e => inl e
      | inr y =>
          match mapM f xs with
          | inl e => inl e
          | inr ys => inr (y :: ys)
          end
      end
  end.

(** [df.groupby(key)]: [KeyError] when [key] is not a column, [ValueError]
    when several columns bear that label; otherwise one group per distinct
    value of that column, the values sorted, the rows of a group in the
    order of the frame. *)
Definition groupby (df : DataFrame) (key : string)
  : result (list (string * DataFrame)) :=
  match index_of key (df_columns df) with
  | None => inl (mkExc KeyError ("'" ++ key ++ "'"))
  | Some _ =>
      if (1 <? length (filter (String.eqb key) (df_columns df)))%nat then
        inl (mkExc ValueError ("Grouper for '" ++ key ++ "' not 1-dimensional"))
      else
        match mapM (fun row => getitem (df_columns df) row key) (df_rows df) with
        | inl e => inl e
        | inr keys =>
            inr (map (fun k =>
                   (k, mkDataFrame (df_columns df)
                         (filter (fun row =>
                                    match getitem (df_columns df) row key with
                                    | inr k' => String.eqb k' k
                                    | inl _ => false
                                    end) (df_rows df))))
                   (group_keys keys))
        end
  end.

(** [repr] of the empty column pandas builds for label [c]. *)
Definition empty_series_repr (c : string) : string :=
  "Series([], Name: " ++ c ++ ", dtype: object)".

(** [df.groupby(key).apply(f).items()] for an [f] that returns a string.
    With at least one group the result is a [Series] indexed by the group
    keys, and [items()] yields the pairs (key, [f] of the group).  With no
    group at all (a frame without rows) pandas never calls [f]:
    [DataFrameGroupBy._wrap_applied_output] returns an empty [DataFrame]
    with the columns of [df], and [items()] of a [DataFrame] yields one
    pair (label, column) per column; formatted in an f-string such a
    column is its [repr].  This is the empty frame of pandas 1.x and 2.x,
    the versions of the time of the class; pandas 3 leaves the grouping
    column out of it. *)
Definition groupby_apply_items (df : DataFrame) (key : string)
           (f : DataFrame -> result string) : result (list (string * string)) :=
  match groupby df key with
  | inl e => inl e
  | inr [] => inr (map (fun c => (c, empty_series_repr c)) (df_columns df))
  | inr groups =>
      mapM (fun g => match f (snd g) with
                     | inl e => inl e
                     | inr v => inr (fst g, v)
                     end) groups
  end.

(** ** Collaborators and effects *)

Inductive LogLevel : Type := INFO | ERROR.

(** What the orchestrator does to the outside: the calls it makes on its
    collaborators and on its logger, in program order. *)
Inductive Event : Type :=
| ConnectorConnect
| ConnectorDisconnect
| ConnectorExecuteQuery (sql : string)
| LlmGenerateText (context : string) (question : option string)
| LoggerCall (level : LogLevel) (msg : string).

(** [DatabaseConnectorInterface]: every method may change the world and
    either returns or raises. *)
Class DatabaseConnectorInterface (W : Type) : Type := {
  connector_connect : W -> W * result unit;
  connector_disconnect : W -> W * result unit;
  connector_execute_query : string -> W -> W * result DataFrame
}.

(** [LlmApiClientInterface]: [generate_text(context, question)]. *)
Class LlmApiClientInterface (W : Type) : Type := {
  llm_generate_text : string -> option string -> W -> W * result (option string)
}.

(** The fields of a [Pipable] object that its methods read and write. *)
Record Pipable : Type := mkPipable {
  connected : bool;
  all_table_queries : option (list string)
}.


(** A run: the object, the world of the collaborators, the calls made. *)
Record Run (W : Type) : Type := mkRun {
  self : Pipable;
  world : W;
  calls : list Event
}.

(** [__init__]: a disconnected orchestrator with an empty cache over the
    world of its collaborators; the one call made is the first line of
    the log. *)
Definition __init__ {W : Type} (w : W) : Run W :=
  {| self := {| connected := false; all_table_queries := None |};
     world := w;
     calls := [LoggerCall INFO "logger initialized in Pipable"] |}.

(** Computations of the class: the state survives an exception, as the
    fields of a Python object do. *)
Definition M (W A : Type) : Type := Run W -> Run W * result A.

Definition ret {W A : Type} (a : A) : M W A := fun r => (r, inr a).

Definition raise {W A : Type} (e : Exc) : M W A := fun r => (r, inl e).

Definition bind {W A B : Type} (c : M W A) (k : A -> M W B) : M W B :=
  fun r => match c r with
           | (r', inr a) => k a r'
           | (r', inl e) => (r', inl e)
           end.

(** [try: c  except Exception as e: h e] *)
Definition try_except {W A : Type} (c : M W A) (h : Exc -> M W A) : M W A :=
  fun r => match c r with
           | (r', inr a) => (r', inr a)
           | (r', inl e) => h e r'
           end.

Declare Scope py_scope.
Delimit Scope py_scope with py.
Notation "x <- c ;; k" := (bind c (fun x => k))
  (at level 61, c at next level, right associativity) : py_scope.
Notation "c ;; k" := (bind c (fun _ => k))
  (at level 61, right associativity) : py_scope.
Local Open Scope py_scope.

Definition record_call {W : Type} (ev : Event) (r : Run W) : Run W :=
  {| self := self r; world := world r; calls := (calls r ++ [ev])%list |}.

(** A call on a collaborator: recorded, then run on the world. *)
Definition call {W A : Type} (ev : Event) (f : W -> W * result A) : M W A :=
  fun r => let (w', res) := f (world r) in
           ({| self := self r; world := w'; calls := (calls r ++ [ev])%list |},
            res).

(** [self.logger.info(msg)] and [self.logger.error(msg)] *)
Definition logger {W : Type} (level : LogLevel) (msg : string) : M W unit :=
  fun r => (record_call (LoggerCall level msg) r, inr tt).

(** [self.connected = b] *)
Definition set_connected {W : Type} (b : bool) : M W unit :=
  fun r => ({| self := {| connected := b;
                          all_table_queries := all_table_queries (self r) |};
               world := world r; calls := calls r |}, inr tt).

(** [self.all_table_queries = qs] *)
Definition set_all_table_queries {W : Type} (qs : list string) : M W unit :=
  fun r => ({| self := {| connected := connected (self r);
                          all_table_queries := Some qs |};
               world := world r; calls := calls r |}, inr tt).

(** Reading a name inside an f-string: [NameError] when no scope binds
    it. *)
Definition load_name {W : Type} (scope : list (string * string)) (x : string)
  : M W string :=
  match find (fun b => String.eqb (fst b) x) scope with
  | Some b => ret (snd b)
  | None => raise (mkExc NameError ("name '" ++ x ++ "' is not defined"))
  end.

(** [str(v)] of an optional string. *)
Definition str_of (v : option string) : string :=
  match v with
  | None => "None"
  | Some s => s
  end.

(** ** The methods of [Pipable] *)

Section Methods.

Context {W : Type}.
Context {database_connector : DatabaseConnectorInterface W}.
Context {llm_api_client : LlmApiClientInterface W}.

(** [_generate_sql_query(self, context, question)].  The message of the
    error log is an f-string that reads the name [e]; the names the
    function can read are its own locals (the module and the builtins
    bind no [e] either), so evaluating the f-string is what happens
    first on that branch. *)
Definition _generate_sql_query (context : string) (question : option string)
  : M W string :=
  logger INFO "generating query using llm" ;;
  generated_text <-
    call (LlmGenerateText context question)
         (llm_generate_text context question) ;;
  if negb (truthy generated_text) then
    e <- load_name [("context", context); ("question", str_of question);
                    ("generated_text", str_of generated_text)] "e" ;;
    logger ERROR ("LLM failed to generate a SQL query: " ++ e) ;;
    raise (mkExc ValueError "LLM failed to generate a SQL query.")
  else
    (* a truthy [generated_text] is a non-empty string *)
    ret (strip (str_of generated_text)).

(** [connect(self)] *)
Definition connect : M W unit :=
  fun r =>
    if negb (connected (self r)) then
      try_except
        (call ConnectorConnect connector_connect ;;
         set_connected true)
        (fun e =>
           logger ERROR ("Failed to connect to the database: " ++ exc_str e) ;;
           raise (mkExc ConnectionError "Failed to connect to the database."))
        r
    else ret tt r.

(** [disconnect(self)] *)
Definition disconnect : M W unit :=
  fun r =>
    if connected (self r) then
      try_except
        (call ConnectorDisconnect connector_disconnect ;;
         set_connected false)
        (fun e =>
           logger ERROR
                  ("Failed to disconnect from the database: " ++ exc_str e) ;;
           raise (mkExc ConnectionError
                        "Failed to disconnect from the database."))
        r
    else ret tt r.

(** The local [where_clause] of [_generate_create_table_statements]. *)
Definition where_clause (table_names : option (list string)) : string :=
  match table_names with
  | Some ((_ :: _) as names) =>
      let tables_to_fetch := join "," (map (fun table => "'" ++ table ++ "'") names) in
      "WHERE table_name IN (" ++ tables_to_fetch ++ ")"
  | _ => "WHERE table_schema = 'public'"
  end.

(** The local [column_info_query]: a triple-quoted f-string, with its
    line breaks and its indentation. *)
Definition column_info_query (table_names : option (list string)) : string :=
  nl ++ "        SELECT table_name, column_name, data_type" ++
  nl ++ "        FROM information_schema.columns" ++
  nl ++ "        " ++ where_clause table_names ++ ";" ++
  nl ++ "        ".

(** The lambda given to [apply]: the columns of one group. *)
Definition columns_of_group (x : DataFrame) : result string :=
  match mapM (fun row =>
                match getitem (df_columns x) row "column_name" with
                | inl e => inl e
                | inr column_name =>
                    match getitem (df_columns x) row "data_type" with
                    | inl e => inl e
                    | inr data_type => inr (column_name ++ " " ++ data_type)
                    end
                end) (df_rows x) with
  | inl e => inl e
  | inr cols => inr (join ", " cols)
  end.

(** From the frame of the catalog query to the list of statements. *)
Definition create_table_statements (column_info_df : DataFrame)
  : result (list string) :=
  match groupby_apply_items column_info_df "table_name" columns_of_group with
  | inl e => inl e
  | inr grouped_columns =>
      inr (map (fun item =>
                  "CREATE TABLE " ++ fst item ++ " (" ++ snd item ++ ");")
               grouped_columns)
  end.

(** [_generate_create_table_statements(self, table_names=None)] *)
Definition _generate_create_table_statements
           (table_names : option (list string)) : M W (list string) :=
  fun r =>
    match all_table_queries (self r) with
    | Some queries => ret queries r
    | None =>
        try_except
          (column_info_df <-
             call (ConnectorExecuteQuery (column_info_query table_names))
                  (connector_execute_query (column_info_query table_names)) ;;
           match create_table_statements column_info_df with
           | inl e => raise e
           | inr queries =>
               set_all_table_queries queries ;;
               ret queries
           end)
          (fun e =>
             logger ERROR
                    ("Error generating CREATE TABLE statements: " ++ exc_str e) ;;
             raise (mkExc ValueError "Error generating CREATE TABLE statements."))
          r
    end.

(** The message of the exception [ask] raises for the cause [e]. *)
Definition ask_error (e : Exc) : Exc :=
  mkExc PyException ("Error in 'ask' method: " ++ exc_str e).

(** [ask(self, question=None, table_names=None)] *)
Definition ask (question : option string) (table_names : option (list string))
  : M W DataFrame :=
  try_except
    (connect ;;
     create_table_statements <- _generate_create_table_statements table_names ;;
     let context := join " " create_table_statements in
     sql_query <- _generate_sql_query context question ;;
     result_df <-
       call (ConnectorExecuteQuery sql_query)
            (connector_execute_query sql_query) ;;
     ret result_df)
    (fun e => raise (ask_error e)).

(** *** Sequences of [connect()] and [disconnect()] calls *)

Inductive Op : Type := CallConnect | CallDisconnect.

Definition run_op (o : Op) : M W unit :=
  match o with
  | CallConnect => connect
  | CallDisconnect => disconnect
  end.

(** The caller makes the calls one after the other, whatever each one
    returns or raises; the outcome of every call is kept. *)
Fixpoint run_ops (ops : list Op) (r : Run W)
  : Run W * list (Op * result unit) :=
  match ops with
  | [] => (r, [])
  | o :: rest =>
      let (r1, res) := run_op o r in
      let (r2, outcomes) := run_ops rest r1 in
      (r2, (o, res) :: outcomes)
  end.

(** *** Which step of [ask] raised *)

(** [step_raises question table_names r r' e]: started in [r], the body
    of [ask] stops in [r'] because one of its four steps raised [e]. *)
Inductive step_raises (question : option string)
          (table_names : option (list string)) (r : Run W)
  : Run W -> Exc -> Prop :=
| raises_in_connect : forall r' e,
    connect r = (r', inl e) ->
    step_raises question table_names r r' e
| raises_in_schema : forall r1 u r' e,
    connect r = (r1, inr u) ->
    _generate_create_table_statements table_names r1 = (r', inl e) ->
    step_raises question table_names r r' e
| raises_in_generation : forall r1 u r2 statements r' e,
    connect r = (r1, inr u) ->
    _generate_create_table_statements table_names r1 = (r2, inr statements) ->
    _generate_sql_query (join " " statements) question r2 = (r', inl e) ->
    step_raises question table_names r r' e
| raises_in_execution : forall r1 u r2 statements r3 sql_query r' e,
    connect r = (r1, inr u) ->
    _generate_create_table_statements table_names r1 = (r2, inr statements) ->
    _generate_sql_query (join " " statements) question r2 = (r3, inr sql_query) ->
    call (ConnectorExecuteQuery sql_query)
         (connector_execute_query sql_query) r3 = (r', inl e) ->
    step_raises question table_names r r' e.

End Methods.

(** Between [r] and [r'] calls were only added, and none of them is the
    connector's [disconnect]. *)
Definition no_disconnect_between {W : Type} (r r' : Run W) : Prop :=
  exists new, calls r' = (calls r ++ new)%list /\ ~ In ConnectorDisconnect new.

(** The running balance of the calls that returned: one up for a
    [connect()], one down for a [disconnect()], kept between 0
    (Disconnected) and 1 (Connected) at every step.  A call that raised
    does not count. *)
Definition clamp (z : Z) : Z := Z.max 0 (Z.min 1 z).

Fixpoint balance (b : Z) (outcomes : list (Op * result unit)) : Z :=
  match outcomes with
  | [] => b
  | (CallConnect, inr _) :: rest => balance (clamp (b + 1)) rest
  | (CallDisconnect, inr _) :: rest => balance (clamp (b - 1)) rest
  | (_, inl _) :: rest => balance b rest
  end.

(** ** A scripted connector and client

    Test doubles in the manner of the mocks the class is tested with: the
    connector answers [execute_query] from a script, in order; the client
    always gives the same answer. *)

Record Mock : Type := mkMock {
  mock_connect : result unit;
  mock_disconnect : result unit;
  mock_replies : list (result DataFrame);
  mock_text : result (option string)
}.

Definition mock_execute_query (sql : string) (w : Mock) : Mock * result DataFrame :=
  match mock_replies w with
  | [] => (w, inl (mkExc (OtherError "ProgrammingError") "no reply scripted"))
  | reply :: rest =>
      ({| mock_connect := mock_connect w; mock_disconnect := mock_disconnect w;
          mock_replies := rest; mock_text := mock_text w |}, reply)
  end.

#[global] Instance mock_connector : DatabaseConnectorInterface Mock := {|
  connector_connect w := (w, mock_connect w);
  connector_disconnect w := (w, mock_disconnect w);
  connector_execute_query := mock_execute_query
|}.

#[global] Instance mock_llm : LlmApiClientInterface Mock := {|
  llm_generate_text _ _ w := (w, mock_text w)
|}.

(** The frame of a catalog query: the three columns of the SELECT and one
    row per (table_name, column_name, data_type). *)
Definition catalog_frame (rows : list (string * string * string)) : DataFrame :=
  {| df_columns := ["table_name"; "column_name"; "data_type"];
     df_rows := map (fun r => [fst (fst r); snd (fst r); snd r]) rows |}.

(** The three fields of a catalog row. *)
Definition row_table (r : string * string * string) : string := fst (fst r).
Definition row_column (r : string * string * string) : string := snd (fst r).
Definition row_type (r : string * string * string) : string := snd r.

(** The statement of table [t] over catalog rows [rows]: the columns of
    [t], in the order of the rows. *)
Definition statement_of (rows : list (string * string * string)) (t : string)
  : string :=
  "CREATE TABLE " ++ t ++ " (" ++
  join ", " (map (fun r => row_column r ++ " " ++ row_type r)
                 (filter (fun r => String.eqb (row_table r) t) rows)) ++ ");".

Definition users_rows : list (string * string * string) :=
  [("users", "id", "integer"); ("users", "name", "text")].

Definition one_cell : DataFrame :=
  {| df_columns := ["avg"]; df_rows := [["42"]] |}.

Definition employees_rows : list (string * string * string) :=
  [("employees", "id", "int"); ("employees", "salary", "numeric")].

(** Everything works: a catalog of one table, then one result. *)
Definition mock_working : Mock :=
  {| mock_connect := inr tt; mock_disconnect := inr tt;
     mock_replies := [inr (catalog_frame employees_rows); inr one_cell];
     mock_text := inr (Some " SELECT AVG(salary) FROM employees; ") |}.

(** The server refuses connections and disconnections. *)
Definition mock_refusing : Mock :=
  {| mock_connect := inl (mkExc (OtherError "OperationalError") "connection refused");
     mock_disconnect := inl (mkExc (OtherError "OperationalError") "connection lost");
     mock_replies := [];
     mock_text := inr (Some "SELECT 1;") |}.

(** The language model answers with the empty string. *)
Definition mock_silent : Mock :=
  {| mock_connect := inr tt; mock_disconnect := inr tt;
     mock_replies := [inr (catalog_frame users_rows); inr one_cell];
     mock_text := inr (Some "") |}.

(** The generated query fails on the server. *)
Definition mock_failing_query : Mock :=
  {| mock_connect := inr tt; mock_disconnect := inr tt;
     mock_replies := [inr (catalog_frame users_rows);
                      inl (mkExc (OtherError "ProgrammingError")
                                 "relation does not exist")];
     mock_text := inr (Some "SELECT * FROM nowhere;") |}.

(** The catalog query returns its three columns and no row. *)
Definition mock_empty_catalog : Mock :=
  {| mock_connect := inr tt; mock_disconnect := inr tt;
     mock_replies := [inr (catalog_frame [])];
     mock_text := inr (Some "SELECT 1;") |}.

(** ** Counting collaborator calls *)

Definition is_connect (ev : Event) : bool :=
  match ev with ConnectorConnect => true | _ => false end.

Definition is_disconnect (ev : Event) : bool :=
  match ev with ConnectorDisconnect => true | _ => false end.

Definition is_execute_query (ev : Event) : bool :=
  match ev with ConnectorExecuteQuery _ => true | _ => false end.

Definition is_generate_text (ev : Event) : bool :=
  match ev with LlmGenerateText _ _ => true | _ => false end.

(** The number of calls in [l] of the kind [p]. *)
Definition count (p : Event -> bool) (l : list Event) : nat :=
  length (filter p l).

(** Between [r] and [r'] calls were only added: at most [c] calls of the
    connector's [connect], [d] of its [disconnect], [x] of its
    [execute_query] and [g] of the client's [generate_text]. *)
Definition adds_within {W : Type} (r r' : Run W) (c d x g : nat) : Prop :=
  exists new,
    calls r' = (calls r ++ new)%list /\
    count is_connect new <= c /\ count is_disconnect new <= d /\
    count is_execute_query new <= x /\ count is_generate_text new <= g.

(** A list of group keys in strictly increasing order. *)
Fixpoint strictly_sorted (l : list string) : Prop :=
  match l with
  | [] => True
  | x :: rest =>
      (forall y, In y rest -> String.compare x y = Lt) /\ strictly_sorted rest
  end.

(** A frame whose only column is [table_name]. *)
Definition names_only_frame (names : list string) : DataFrame :=
  {| df_columns := ["table_name"]; df_rows := map (fun t => [t]) names |}.

(** The connector works, the language model is out of reach. *)
Definition mock_llm_down : Mock :=
  {| mock_connect := inr tt; mock_disconnect := inr tt;
     mock_replies := [inr (catalog_frame users_rows); inr one_cell];
     mock_text := inl (mkExc (OtherError "HTTPError") "503 Service Unavailable") |}.

(** The catalog query itself fails. *)
Definition mock_no_catalog : Mock :=
  {| mock_connect := inr tt; mock_disconnect := inr tt;
     mock_replies := [inl (mkExc (OtherError "ProgrammingError")
                                 "permission denied for information_schema")];
     mock_text := inr (Some "SELECT 1;") |}.

(** The catalog query returns a frame that lacks the expected columns. *)
Definition mock_wrong_frame : Mock :=
  {| mock_connect := inr tt; mock_disconnect := inr tt;
     mock_replies := [inr one_cell];
     mock_text := inr (Some "SELECT 1;") |}.

(** The language model answers with white space only. *)
Definition mock_blank : Mock :=
  {| mock_connect := inr tt; mock_disconnect := inr tt;
     mock_replies := [inr (catalog_frame users_rows); inr one_cell];
     mock_text := inr (Some "   ") |}.

(** Catalog rows of two tables, interleaved and not in order. *)
Definition shop_rows : list (string * string * string) :=
  [("orders", "id", "integer"); ("customers", "id", "integer");
   ("orders", "total", "numeric"); ("customers", "name", "text")].

(** The run after a first [ask] that worked: connected, statements
    cached, the script of the connector used up. *)
Definition warm_run : Run Mock :=
  fst (ask (Some "average salary") None (__init__ mock_working)).

(** * Properties *)

(** ** [str.strip] *)

Lemma append_assoc (a b c : string) : (a ++ b) ++ c = a ++ b ++ c.
Proof. induction a as [|x a IH]; simpl; congruence. Qed.

Lemma lstrip_spec (s : string) :
  exists l, s = l ++ lstrip s /\ all_space l = true /\
            (forall c, first_char (lstrip s) = Some c -> isspace c = false).
Proof.
  induction s as [|a s IH]; simpl.
  - exists "". repeat split; auto. discriminate.
  - destruct (isspace a) eqn:Ea.
    + destruct IH as (l & Heq & Hl & Hfirst).
      exists (String a l). simpl. rewrite Ea, Hl. rewrite <- Heq. auto.
    + exists "". simpl. repeat split; auto.
      intros c Hc. injection Hc as <-. exact Ea.
Qed.

Lemma rstrip_spec (s : string) :
  exists r, s = rstrip s ++ r /\ all_space r = true /\
            (forall c, last_char (rstrip s) = Some c -> isspace c = false).
Proof.
  induction s as [|a s IH]; simpl.
  - exists "". repeat split; auto. discriminate.
  - destruct IH as (r & Heq & Hr & Hlast).
    destruct (rstrip s) as [|b t] eqn:Et.
    + simpl in Heq. subst r. destruct (isspace a) eqn:Ea.
      * exists (String a s). simpl. rewrite Ea, Hr. repeat split; auto.
      * exists s. simpl. repeat split; auto.
        intros c Hc. injection Hc as <-. exact Ea.
    + exists r. repeat split; auto.
      simpl. rewrite Heq at 1. reflexivity.
Qed.

Lemma rstrip_first (s : string) (c : ascii) :
  first_char (rstrip s) = Some c -> first_char s = Some c.
Proof.
  destruct s as [|a s]; simpl; auto.
  destruct (rstrip s); [destruct (isspace a)|]; simpl; auto. discriminate.
Qed.

(** [strip] removes white space, and only white space, from both ends. *)
Lemma strip_spec (s : string) :
  exists l r, s = l ++ strip s ++ r /\
              all_space l = true /\ all_space r = true /\ trimmed (strip s).
Proof.
  unfold strip.
  destruct (lstrip_spec s) as (l & Hl & Hsl & Hfirst).
  destruct (rstrip_spec (lstrip s)) as (r & Hr & Hsr & Hlast).
  exists l, r. repeat split; auto.
  - rewrite <- Hr. exact Hl.
  - intros c Hc. apply Hfirst. apply rstrip_first. exact Hc.
Qed.

(** ** The connection life cycle *)

Section Connection.

Context {W : Type}.
Context {database_connector : DatabaseConnectorInterface W}.
Context {llm_api_client : LlmApiClientInterface W}.

Lemma connect_when_connected (r : Run W) :
  connected (self r) = true -> connect r = (r, inr tt).
Proof. intros H. unfold connect. rewrite H. reflexivity. Qed.

Lemma disconnect_when_disconnected (r : Run W) :
  connected (self r) = false -> disconnect r = (r, inr tt).
Proof. intros H. unfold disconnect. rewrite H. reflexivity. Qed.

Lemma connect_returns (r r1 : Run W) (u : unit) :
  connect r = (r1, inr u) ->
  connected (self r1) = true /\
  all_table_queries (self r1) = all_table_queries (self r).
Proof.
  unfold connect. destruct (connected (self r)) eqn:Hc; simpl.
  - unfold ret. intros [= <- _]. auto.
  - unfold try_except, bind, call, set_connected, logger, raise.
    destruct (connector_connect (world r)) as [w' [e|v]]; simpl.
    + discriminate.
    + intros [= <- _]. auto.
Qed.

Lemma connect_raises (r r1 : Run W) (e : Exc) :
  connect r = (r1, inl e) ->
  self r1 = self r /\ connected (self r) = false /\
  e = mkExc ConnectionError "Failed to connect to the database.".
Proof.
  unfold connect. destruct (connected (self r)) eqn:Hc; simpl.
  - unfold ret. discriminate.
  - unfold try_except, bind, call, set_connected, logger, raise.
    destruct (connector_connect (world r)) as [w' [e'|v]]; simpl.
    + intros [= <- <-]. auto.
    + discriminate.
Qed.

Lemma disconnect_returns (r r1 : Run W) (u : unit) :
  disconnect r = (r1, inr u) -> connected (self r1) = false.
Proof.
  unfold disconnect. destruct (connected (self r)) eqn:Hc; simpl.
  - unfold try_except, bind, call, set_connected, logger, raise.
    destruct (connector_disconnect (world r)) as [w' [e|v]]; simpl.
    + discriminate.
    + intros [= <- _]. auto.
  - unfold ret. intros [= <- _]. auto.
Qed.

Lemma disconnect_raises (r r1 : Run W) (e : Exc) :
  disconnect r = (r1, inl e) ->
  self r1 = self r /\ connected (self r) = true /\
  e = mkExc ConnectionError "Failed to disconnect from the database.".
Proof.
  unfold disconnect. destruct (connected (self r)) eqn:Hc; simpl.
  - unfold try_except, bind, call, set_connected, logger, raise.
    destruct (connector_disconnect (world r)) as [w' [e'|v]]; simpl.
    + intros [= <- <-]. auto.
    + discriminate.
  - unfold ret. discriminate.
Qed.

(** One call keeps the flag equal to the clamped balance. *)
Lemma run_op_balance (o : Op) (r r1 : Run W) (res : result unit) (b : Z) :
  (b = 0 \/ b = 1)%Z ->
  connected (self r) = (b =? 1)%Z ->
  run_op o r = (r1, res) ->
  let b' := balance b [(o, res)] in
  (b' = 0 \/ b' = 1)%Z /\ connected (self r1) = (b' =? 1)%Z.
Proof.
  intros Hb Hc Hrun. destruct o, res as [e|u]; simpl in *.
  - apply connect_raises in Hrun as (Hs & _ & _). rewrite Hs. auto.
  - apply connect_returns in Hrun as (Hs & _). rewrite Hs.
    unfold clamp. destruct Hb; subst b; simpl; auto.
  - apply disconnect_raises in Hrun as (Hs & _ & _). rewrite Hs. auto.
  - apply disconnect_returns in Hrun. rewrite Hrun.
    unfold clamp. destruct Hb; subst b; simpl; auto.
Qed.

Lemma balance_app (b : Z) (xs ys : list (Op * result unit)) :
  balance b (xs ++ ys)%list = balance (balance b xs) ys.
Proof.
  revert b. induction xs as [|[o [e|u]] xs IH]; intros b; simpl; auto.
  - destruct o; apply IH.
  - destruct o; apply IH.
Qed.

Lemma run_ops_balance (ops : list Op) :
  forall (r : Run W) (b : Z),
    (b = 0 \/ b = 1)%Z ->
    connected (self r) = (b =? 1)%Z ->
    connected (self (fst (run_ops ops r)))
    = (balance b (snd (run_ops ops r)) =? 1)%Z.
Proof.
  induction ops as [|o ops IH]; intros r b Hb Hc; simpl; auto.
  destruct (run_op o r) as [r1 res] eqn:Hop.
  destruct (@run_op_balance o r r1 res b Hb Hc Hop) as (Hb' & Hc').
  specialize (IH r1 _ Hb' Hc').
  destruct (run_ops ops r1) as [r2 outcomes]. cbn [fst snd] in *.
  rewrite IH. change ((o, res) :: outcomes) with ([(o, res)] ++ outcomes)%list.
  rewrite balance_app. reflexivity.
Qed.

(** C3. For every finite sequence of [connect()] and [disconnect()] calls
    on an orchestrator that starts Disconnected, the [connected] flag
    after the sequence is the clamped running balance of the connects
    that returned minus the disconnects that returned; a [connect()] on a
    connected orchestrator and a [disconnect()] on a disconnected one
    return at once, with the object, the world and the list of collaborator
    calls as they were. *)
Theorem connected_is_clamped_balance :
  (forall (ops : list Op) (w : W),
      connected (self (fst (run_ops ops (__init__ w))))
      = (balance 0 (snd (run_ops ops (__init__ w))) =? 1)%Z) /\
  (forall (queries : option (list string)) (w : W) (cs : list Event),
      let r := {| self := {| connected := true; all_table_queries := queries |};
                  world := w; calls := cs |} in
      connect r = (r, inr tt)) /\
  (forall (queries : option (list string)) (w : W) (cs : list Event),
      let r := {| self := {| connected := false; all_table_queries := queries |};
                  world := w; calls := cs |} in
      disconnect r = (r, inr tt)).
Proof.
  split; [|split].
  - intros ops w. apply run_ops_balance; auto.
  - intros. apply connect_when_connected. reflexivity.
  - intros. apply disconnect_when_disconnected. reflexivity.
Qed.

(** C4. When the connector's [connect] raises, [connect()] logs the
    detail and raises a [ConnectionError] with a fixed message, whatever
    the underlying exception was, and the object is as before the call;
    the same holds of [disconnect()] when the connector's [disconnect]
    raises. *)
Theorem connection_failure_keeps_state :
  (forall (r : Run W) (w' : W) (e : Exc),
      connected (self r) = false ->
      connector_connect (world r) = (w', inl e) ->
      connect r =
        ({| self := self r; world := w';
            calls := (calls r ++
                      [ConnectorConnect;
                       LoggerCall ERROR
                         ("Failed to connect to the database: " ++ exc_str e)])%list |},
         inl (mkExc ConnectionError "Failed to connect to the database."))) /\
  (forall (r : Run W) (w' : W) (e : Exc),
      connected (self r) = true ->
      connector_disconnect (world r) = (w', inl e) ->
      disconnect r =
        ({| self := self r; world := w';
            calls := (calls r ++
                      [ConnectorDisconnect;
                       LoggerCall ERROR
                         ("Failed to disconnect from the database: "
                            ++ exc_str e)])%list |},
         inl (mkExc ConnectionError "Failed to disconnect from the database."))).
Proof.
  split; intros r w' e Hc Hcall.
  - unfold connect, try_except, bind, call, logger, raise, record_call.
    rewrite Hc, Hcall. simpl. rewrite <- app_assoc. reflexivity.
  - unfold disconnect, try_except, bind, call, logger, raise, record_call.
    rewrite Hc, Hcall. simpl. rewrite <- app_assoc. reflexivity.
Qed.

End Connection.

(** ** Rendering the catalog rows *)

Lemma mapM_total {A B : Type} (f : A -> result B) (g : A -> B) (l : list A) :
  (forall x, In x l -> f x = inr (g x)) -> mapM f l = inr (map g l).
Proof.
  induction l as [|x l IH]; intros Hf; simpl; auto.
  rewrite (Hf x (or_introl eq_refl)), IH; auto.
  intros y Hy. apply Hf. right. exact Hy.
Qed.

Lemma insert_key_not_nil (k : string) (ks : list string) : insert_key k ks <> [].
Proof.
  destruct ks as [|k' ks]; simpl; [discriminate|].
  destruct (String.compare k k'); discriminate.
Qed.

Lemma group_keys_not_nil (keys : list string) : keys <> [] -> group_keys keys <> [].
Proof.
  destruct keys as [|k keys]; [congruence|]. intros _. simpl.
  apply insert_key_not_nil.
Qed.

Lemma insert_key_In (k x : string) (ks : list string) :
  In x (insert_key k ks) <-> x = k \/ In x ks.
Proof.
  induction ks as [|k' ks IH]; simpl.
  - intuition.
  - destruct (String.compare k k') eqn:Hcmp; simpl.
    + apply String.compare_eq_iff in Hcmp. subst k'. intuition.
    + intuition.
    + rewrite IH. intuition.
Qed.

(** The group keys are exactly the table names that occur. *)
Lemma group_keys_In (x : string) (keys : list string) :
  In x (group_keys keys) <-> In x keys.
Proof.
  induction keys as [|k keys IH]; simpl; [tauto|].
  rewrite insert_key_In, IH. intuition.
Qed.

Lemma filter_catalog_rows (t : string) (rows : list (string * string * string)) :
  filter (fun row =>
            match getitem ["table_name"; "column_name"; "data_type"] row
                          "table_name" with
            | inr k' => String.eqb k' t
            | inl _ => false
            end)
         (map (fun r => [fst (fst r); snd (fst r); snd r]) rows)
  = map (fun r => [fst (fst r); snd (fst r); snd r])
        (filter (fun r => String.eqb (row_table r) t) rows).
Proof.
  induction rows as [|[[a b] c] rows IH]; auto.
  cbn [map filter]. rewrite IH. unfold row_table.
  change (getitem ["table_name"; "column_name"; "data_type"]
                  [fst (fst (a, b, c)); snd (fst (a, b, c)); snd (a, b, c)]
                  "table_name") with (@inr Exc string a).
  cbn [fst snd]. destruct (String.eqb a t); reflexivity.
Qed.

Lemma groupby_catalog_frame (rows : list (string * string * string)) :
  groupby (catalog_frame rows) "table_name"
  = inr (map (fun t => (t, catalog_frame
                             (filter (fun r => String.eqb (row_table r) t) rows)))
             (group_keys (map row_table rows))).
Proof.
  unfold groupby, catalog_frame. cbn [df_columns df_rows].
  change (index_of "table_name" ["table_name"; "column_name"; "data_type"])
    with (Some 0).
  change (1 <? length (filter (String.eqb "table_name")
                              ["table_name"; "column_name"; "data_type"]))%nat
    with false.
  cbv iota.
  rewrite (mapM_total _ (fun row => nth 0 row "")).
  - rewrite map_map. cbn [nth]. f_equal. apply map_ext. intros t.
    rewrite filter_catalog_rows. reflexivity.
  - intros row Hin. apply in_map_iff in Hin as ([[a b] c] & <- & _).
    reflexivity.
Qed.

Lemma columns_of_catalog_group (rows : list (string * string * string)) :
  columns_of_group (catalog_frame rows)
  = inr (join ", " (map (fun r => row_column r ++ " " ++ row_type r) rows)).
Proof.
  unfold columns_of_group, catalog_frame. cbn [df_columns df_rows].
  rewrite (mapM_total _ (fun row => nth 1 row "" ++ " " ++ nth 2 row "")).
  - rewrite map_map. reflexivity.
  - intros row Hin. apply in_map_iff in Hin as ([[a b] c] & <- & _).
    reflexivity.
Qed.

(** The frame of a catalog query with at least one row renders one
    statement per table name, table names sorted. *)
Lemma create_table_statements_catalog (rows : list (string * string * string)) :
  rows <> [] ->
  create_table_statements (catalog_frame rows)
  = inr (map (statement_of rows) (group_keys (map row_table rows))).
Proof.
  intros Hrows. unfold create_table_statements, groupby_apply_items.
  rewrite groupby_catalog_frame.
  assert (Hk : group_keys (map row_table rows) <> []).
  { apply group_keys_not_nil. destruct rows; [congruence | discriminate]. }
  destruct (group_keys (map row_table rows)) as [|k ks] eqn:Ek; [congruence|].
  rewrite <- Ek. clear Ek Hk.
  set (groups := map _ (group_keys (map row_table rows))).
  assert (Hm : mapM (fun g : string * DataFrame =>
                       match columns_of_group (snd g) with
                       | inl e => inl e
                       | inr v => inr (fst g, v)
                       end) groups
               = inr (map (fun t =>
                             (t, join ", "
                                   (map (fun r => row_column r ++ " " ++ row_type r)
                                        (filter (fun r => String.eqb (row_table r) t)
                                                rows))))
                          (group_keys (map row_table rows)))).
  { unfold groups.
    rewrite (mapM_total _ (fun g : string * DataFrame =>
                             (fst g,
                              join ", " (map (fun row => nth 1 row "" ++ " " ++ nth 2 row "")
                                             (df_rows (snd g)))))).
    - rewrite map_map. f_equal. apply map_ext. intros t. cbn [fst snd].
      f_equal. unfold catalog_frame. cbn [df_rows]. rewrite map_map. reflexivity.
    - intros g Hin. apply in_map_iff in Hin as (t & <- & _). cbn [fst snd].
      rewrite columns_of_catalog_group. unfold catalog_frame. cbn [df_rows].
      rewrite map_map. reflexivity. }
  destruct groups as [|g gs] eqn:Eg.
  - unfold groups in Eg. apply map_eq_nil in Eg.
    exfalso. revert Eg. apply group_keys_not_nil.
    destruct rows; [congruence | discriminate].
  - rewrite Hm. rewrite map_map. reflexivity.
Qed.

(** ** The schema context and its cache *)

Section SchemaContext.

Context {W : Type}.
Context {database_connector : DatabaseConnectorInterface W}.
Context {llm_api_client : LlmApiClientInterface W}.

Lemma statements_when_cached (table_names : option (list string))
      (r : Run W) (queries : list string) :
  all_table_queries (self r) = Some queries ->
  _generate_create_table_statements table_names r = (r, inr queries).
Proof.
  intros H. unfold _generate_create_table_statements. rewrite H. reflexivity.
Qed.

(** With an empty cache the builder queries the catalog first. *)
Lemma statements_when_not_cached (table_names : option (list string))
      (r : Run W) :
  all_table_queries (self r) = None ->
  exists rest,
    calls (fst (_generate_create_table_statements table_names r))
    = (calls r ++
       ConnectorExecuteQuery (column_info_query table_names) :: rest)%list.
Proof.
  intros H.
  unfold _generate_create_table_statements, try_except, bind, call,
    set_all_table_queries, logger, raise, ret, record_call.
  rewrite H.
  destruct (connector_execute_query (column_info_query table_names) (world r))
    as [w' [e|df]]; cbn [fst calls].
  - eexists. rewrite <- app_assoc. reflexivity.
  - destruct (create_table_statements df) as [e|queries]; cbn [fst calls].
    + eexists. rewrite <- app_assoc. reflexivity.
    + exists []. reflexivity.
Qed.

Lemma statements_built (table_names : option (list string)) (r : Run W)
      (w' : W) (column_info_df : DataFrame) (queries : list string) :
  all_table_queries (self r) = None ->
  connector_execute_query (column_info_query table_names) (world r)
  = (w', inr column_info_df) ->
  create_table_statements column_info_df = inr queries ->
  _generate_create_table_statements table_names r
  = ({| self := {| connected := connected (self r);
                   all_table_queries := Some queries |};
        world := w';
        calls := (calls r ++
                  [ConnectorExecuteQuery (column_info_query table_names)])%list |},
     inr queries).
Proof.
  intros Hnone Hq Hs.
  unfold _generate_create_table_statements, try_except, bind, call,
    set_all_table_queries, ret.
  rewrite Hnone, Hq, Hs. reflexivity.
Qed.

Lemma statements_returned (table_names : option (list string))
      (r r1 : Run W) (queries : list string) :
  _generate_create_table_statements table_names r = (r1, inr queries) ->
  all_table_queries (self r1) = Some queries /\
  connected (self r1) = connected (self r).
Proof.
  unfold _generate_create_table_statements, try_except, bind, call,
    set_all_table_queries, logger, raise, ret, record_call.
  destruct (all_table_queries (self r)) as [cached|] eqn:Hc.
  - intros [= <- <-]. auto.
  - destruct (connector_execute_query (column_info_query table_names) (world r))
      as [w' [e|df]]; [discriminate|].
    destruct (create_table_statements df) as [e|qs]; [discriminate|].
    intros [= <- <-]. auto.
Qed.

Lemma statements_raised (table_names : option (list string))
      (r r1 : Run W) (e : Exc) :
  _generate_create_table_statements table_names r = (r1, inl e) ->
  self r1 = self r /\ all_table_queries (self r) = None /\
  e = mkExc ValueError "Error generating CREATE TABLE statements.".
Proof.
  unfold _generate_create_table_statements, try_except, bind, call,
    set_all_table_queries, logger, raise, ret, record_call.
  destruct (all_table_queries (self r)) as [cached|] eqn:Hc; [discriminate|].
  destruct (connector_execute_query (column_info_query table_names) (world r))
    as [w' [e'|df]].
  - intros [= <- <-]. auto.
  - destruct (create_table_statements df) as [e'|qs]; [|discriminate].
    intros [= <- <-]. auto.
Qed.

(** C5. On the catalog rows (users, id, integer), (users, name, text)
    the builder returns exactly
    [CREATE TABLE users (id integer, name text);], and in general, on
    catalog rows that are not empty, it returns one statement
    [CREATE TABLE <table> (<col> <type>, ...);] per table name, with the
    columns of that table joined by a comma and a space in the order of
    the rows. *)
Theorem create_table_statement_rendering :
  create_table_statements (catalog_frame users_rows)
  = inr ["CREATE TABLE users (id integer, name text);"] /\
  forall (table_names : option (list string)) (r : Run W) (w' : W)
         (rows : list (string * string * string)),
    rows <> [] ->
    all_table_queries (self r) = None ->
    connector_execute_query (column_info_query table_names) (world r)
    = (w', inr (catalog_frame rows)) ->
    snd (_generate_create_table_statements table_names r)
    = inr (map (fun t =>
                  "CREATE TABLE " ++ t ++ " (" ++
                  join ", " (map (fun row => row_column row ++ " " ++ row_type row)
                                 (filter (fun row => String.eqb (row_table row) t)
                                         rows)) ++ ");")
               (group_keys (map row_table rows))).
Proof.
  split; [reflexivity|].
  intros table_names r w' rows Hrows Hnone Hq.
  rewrite (statements_built table_names r Hnone Hq
             (create_table_statements_catalog Hrows)).
  reflexivity.
Qed.

(** C6. After a build that returned, a second call returns the same
    list, whatever its table-name filter, and leaves the object, the
    world and the list of collaborator calls untouched: nothing is
    queried again. *)
Theorem second_build_returns_cache
        (table_names1 table_names2 : option (list string))
        (r r1 : Run W) (queries : list string) :
  _generate_create_table_statements table_names1 r = (r1, inr queries) ->
  _generate_create_table_statements table_names2 r1 = (r1, inr queries).
Proof.
  intros H. apply statements_returned in H as (Hcache & _).
  apply statements_when_cached. exact Hcache.
Qed.

(** C7. With an empty cache the builder sends the connector one query:
    the SELECT of table_name, column_name, data_type from
    information_schema.columns, filtered by
    [WHERE table_name IN ('t1','t2',...)] over exactly the given names
    when the list is not empty, and by [WHERE table_schema = 'public']
    when it is [None] or empty. *)
Theorem catalog_query_text :
  (forall (table_names : option (list string)) (r : Run W),
      all_table_queries (self r) = None ->
      exists rest,
        calls (fst (_generate_create_table_statements table_names r))
        = (calls r ++
           ConnectorExecuteQuery (column_info_query table_names) :: rest)%list) /\
  (forall (t : string) (ts : list string),
      column_info_query (Some (t :: ts))
      = nl ++ "        SELECT table_name, column_name, data_type" ++
        nl ++ "        FROM information_schema.columns" ++
        nl ++ "        WHERE table_name IN (" ++
        join "," (map (fun name => "'" ++ name ++ "'") (t :: ts)) ++ ");" ++
        nl ++ "        ") /\
  (forall (table_names : option (list string)),
      table_names = None \/ table_names = Some [] ->
      column_info_query table_names
      = nl ++ "        SELECT table_name, column_name, data_type" ++
        nl ++ "        FROM information_schema.columns" ++
        nl ++ "        WHERE table_schema = 'public';" ++
        nl ++ "        ") /\
  where_clause (Some ["orders"; "users"])
  = "WHERE table_name IN ('orders','users')".
Proof.
  split; [|split; [|split]].
  - intros table_names r H. apply statements_when_not_cached. exact H.
  - intros t ts. unfold column_info_query, where_clause.
    rewrite !append_assoc. reflexivity.
  - intros table_names [-> | ->]; reflexivity.
  - reflexivity.
Qed.

(** X21. The cache is guarded by an is-not-None test, not by
    a test for emptiness: a cached list, the empty list included, is
    returned by every later call, whatever the filter, with nothing
    queried; with the cache at [None] the catalog is queried; a build
    that returns leaves the cache holding the list it returned, and a
    build that raises leaves the cache at [None]. *)
Theorem cache_guard_is_not_none :
  (forall (table_names : option (list string)) (r : Run W)
          (queries : list string),
      all_table_queries (self r) = Some queries ->
      _generate_create_table_statements table_names r = (r, inr queries)) /\
  (forall (table_names : option (list string)) (w : W) (cs : list Event)
          (c : bool),
      let r := {| self := {| connected := c; all_table_queries := Some [] |};
                  world := w; calls := cs |} in
      _generate_create_table_statements table_names r = (r, inr [])) /\
  (forall (table_names : option (list string)) (r : Run W),
      all_table_queries (self r) = None ->
      exists rest,
        calls (fst (_generate_create_table_statements table_names r))
        = (calls r ++
           ConnectorExecuteQuery (column_info_query table_names) :: rest)%list) /\
  (forall (table_names : option (list string)) (r r1 : Run W)
          (queries : list string),
      _generate_create_table_statements table_names r = (r1, inr queries) ->
      all_table_queries (self r1) = Some queries) /\
  (forall (table_names : option (list string)) (r r1 : Run W) (e : Exc),
      _generate_create_table_statements table_names r = (r1, inl e) ->
      all_table_queries (self r1) = None).
Proof.
  split; [|split; [|split; [|split]]].
  - intros. apply statements_when_cached. assumption.
  - intros. apply statements_when_cached. reflexivity.
  - intros. apply statements_when_not_cached. assumption.
  - intros table_names r r1 queries H.
    apply statements_returned in H. tauto.
  - intros table_names r r1 e H.
    apply statements_raised in H as (Hs & Hn & _). rewrite Hs. exact Hn.
Qed.

End SchemaContext.

(** ** [ask] *)

Section Ask.

Context {W : Type}.
Context {database_connector : DatabaseConnectorInterface W}.
Context {llm_api_client : LlmApiClientInterface W}.

(** *** Query generation *)

Lemma sql_query_generated (context : string) (question : option string)
      (r : Run W) (w' : W) (s : string) :
  llm_generate_text context question (world r) = (w', inr (Some s)) ->
  s <> "" ->
  _generate_sql_query context question r
  = ({| self := self r; world := w';
        calls := (calls r ++ [LoggerCall INFO "generating query using llm";
                              LlmGenerateText context question])%list |},
     inr (strip s)).
Proof.
  intros Hllm Hs.
  unfold _generate_sql_query, bind, logger, call, record_call, ret.
  cbn [world self calls]. rewrite Hllm.
  destruct s as [|c s]; [congruence|]. cbn [truthy negb str_of].
  rewrite <- app_assoc. reflexivity.
Qed.

Lemma sql_query_falsy (context : string) (question : option string)
      (r : Run W) (w' : W) (v : option string) :
  llm_generate_text context question (world r) = (w', inr v) ->
  truthy v = false ->
  _generate_sql_query context question r
  = ({| self := self r; world := w';
        calls := (calls r ++ [LoggerCall INFO "generating query using llm";
                              LlmGenerateText context question])%list |},
     inl (mkExc NameError "name 'e' is not defined")).
Proof.
  intros Hllm Hv.
  unfold _generate_sql_query, bind, logger, call, record_call, ret.
  cbn [world self calls]. rewrite Hllm, Hv. cbn [negb].
  unfold load_name, raise. cbn [find fst String.eqb Ascii.eqb Bool.eqb].
  rewrite <- app_assoc. reflexivity.
Qed.

Lemma sql_query_keeps_self (context : string) (question : option string)
      (r r' : Run W) (res : result string) :
  _generate_sql_query context question r = (r', res) -> self r' = self r.
Proof.
  unfold _generate_sql_query, bind, logger, call, record_call, ret.
  cbn [world self calls].
  destruct (llm_generate_text context question (world r)) as [w' [e|v]].
  - intros [= <- _]. reflexivity.
  - destruct (negb (truthy v)).
    + unfold load_name, raise. cbn [find fst String.eqb Ascii.eqb Bool.eqb].
      intros [= <- _]. reflexivity.
    + intros [= <- _]. reflexivity.
Qed.

(** *** No step of [ask] disconnects *)

Lemma no_disconnect_refl (r : Run W) : no_disconnect_between r r.
Proof. exists []. rewrite app_nil_r. auto. Qed.

Lemma no_disconnect_trans (r1 r2 r3 : Run W) :
  no_disconnect_between r1 r2 -> no_disconnect_between r2 r3 ->
  no_disconnect_between r1 r3.
Proof.
  intros (n1 & H1 & N1) (n2 & H2 & N2). exists (n1 ++ n2)%list. split.
  - rewrite H2, H1, app_assoc. reflexivity.
  - rewrite in_app_iff. tauto.
Qed.

Lemma no_disconnect_new (r r' : Run W) (new : list Event) :
  calls r' = (calls r ++ new)%list ->
  forallb (fun ev => match ev with ConnectorDisconnect => false | _ => true end)
          new = true ->
  no_disconnect_between r r'.
Proof.
  intros Hc Hall. exists new. split; auto.
  intros Hin. rewrite forallb_forall in Hall. specialize (Hall _ Hin).
  discriminate.
Qed.

Lemma connect_no_disconnect (r r' : Run W) (res : result unit) :
  connect r = (r', res) -> no_disconnect_between r r'.
Proof.
  unfold connect, try_except, bind, call, set_connected, logger, raise, ret,
    record_call.
  destruct (connected (self r)); cbn [negb].
  - intros [= <- _]. apply no_disconnect_refl.
  - destruct (connector_connect (world r)) as [w' [e|v]]; intros [= <- _].
    + eapply no_disconnect_new; cbn [calls].
      * rewrite <- app_assoc. reflexivity.
      * reflexivity.
    + eapply no_disconnect_new; cbn [calls]; reflexivity.
Qed.

Lemma statements_no_disconnect (table_names : option (list string))
      (r r' : Run W) (res : result (list string)) :
  _generate_create_table_statements table_names r = (r', res) ->
  no_disconnect_between r r'.
Proof.
  unfold _generate_create_table_statements, try_except, bind, call,
    set_all_table_queries, logger, raise, ret, record_call.
  destruct (all_table_queries (self r)).
  - intros [= <- _]. apply no_disconnect_refl.
  - destruct (connector_execute_query (column_info_query table_names) (world r))
      as [w' [e|df]].
    + intros [= <- _]. eapply no_disconnect_new; cbn [calls].
      * rewrite <- app_assoc. reflexivity.
      * reflexivity.
    + destruct (create_table_statements df) as [e|qs]; intros [= <- _].
      * eapply no_disconnect_new; cbn [calls].
        -- rewrite <- app_assoc. reflexivity.
        -- reflexivity.
      * eapply no_disconnect_new; cbn [calls]; reflexivity.
Qed.

Lemma sql_query_no_disconnect (context : string) (question : option string)
      (r r' : Run W) (res : result string) :
  _generate_sql_query context question r = (r', res) ->
  no_disconnect_between r r'.
Proof.
  unfold _generate_sql_query, bind, logger, call, record_call, ret.
  cbn [world self calls].
  destruct (llm_generate_text context question (world r)) as [w' [e|v]].
  - intros [= <- _]. eapply no_disconnect_new; cbn [calls].
    + rewrite <- app_assoc. reflexivity.
    + reflexivity.
  - destruct (negb (truthy v)).
    + unfold load_name, raise. cbn [find fst String.eqb Ascii.eqb Bool.eqb].
      intros [= <- _]. eapply no_disconnect_new; cbn [calls].
      * rewrite <- app_assoc. reflexivity.
      * reflexivity.
    + intros [= <- _]. eapply no_disconnect_new; cbn [calls].
      * rewrite <- app_assoc. reflexivity.
      * reflexivity.
Qed.

(** *** The outer handler *)

Lemma ask_wraps (question : option string) (table_names : option (list string))
      (r r' : Run W) (e : Exc) :
  step_raises question table_names r r' e ->
  ask question table_names r = (r', inl (ask_error e)).
Proof.
  intros H. unfold ask, try_except, bind, raise.
  destruct H as [r' e H1 | r1 u r' e H1 H2 | r1 u r2 st r' e H1 H2 H3
                 | r1 u r2 st r3 sql r' e H1 H2 H3 H4].
  - rewrite H1. reflexivity.
  - rewrite H1, H2. reflexivity.
  - rewrite H1, H2, H3. reflexivity.
  - rewrite H1, H2, H3, H4. reflexivity.
Qed.

(** [ask] raises nothing but a wrapped failure of one of its steps. *)
Lemma ask_raises_only_wrapped (question : option string)
      (table_names : option (list string)) (r r' : Run W) (x : Exc) :
  ask question table_names r = (r', inl x) ->
  exists e, step_raises question table_names r r' e /\ x = ask_error e.
Proof.
  unfold ask, try_except, bind, raise, ret.
  destruct (connect r) as [r1 [e1|u]] eqn:H1.
  { intros [= <- <-]. exists e1. split; auto. apply raises_in_connect; auto. }
  destruct (_generate_create_table_statements table_names r1)
    as [r2 [e2|st]] eqn:H2.
  { intros [= <- <-]. exists e2. split; auto.
    eapply raises_in_schema; eauto. }
  destruct (_generate_sql_query (join " " st) question r2)
    as [r3 [e3|sql]] eqn:H3.
  { intros [= <- <-]. exists e3. split; auto.
    eapply raises_in_generation; eauto. }
  destruct (call (ConnectorExecuteQuery sql) (connector_execute_query sql) r3)
    as [r4 [e4|df]] eqn:H4.
  { intros [= <- <-]. exists e4. split; auto.
    eapply raises_in_execution; eauto. }
  discriminate.
Qed.

(** C2. Whichever step of [ask] raises (connect, the schema-context
    build, the SQL generation or the execution), [ask] raises one
    exception of class [Exception] whose message is exactly
    [Error in 'ask' method: ] followed by the message of what that step
    raised, and stops in the state that step left. *)
Theorem ask_wraps_every_failure (question : option string)
        (table_names : option (list string)) (r r' : Run W) (e : Exc) :
  step_raises question table_names r r' e ->
  ask question table_names r
  = (r', inl (mkExc PyException ("Error in 'ask' method: " ++ exc_str e))).
Proof. intros H. apply ask_wraps. exact H. Qed.

(** C1, on the code as it is. When [generate_text] returns [None] or the
    empty string, [ask] stops right after that call: the connector's
    [execute_query] is not called with any generated SQL.  The failure
    [ask] raises is however not the wrapped [ValueError] of the empty
    generation: building the message of the error log reads the unbound
    name [e], so a [NameError] is what the outer handler wraps. *)
Theorem ask_empty_generation_raises_name_error
        (question : option string) (table_names : option (list string))
        (r r1 r2 : Run W) (u : unit) (statements : list string)
        (w3 : W) (v : option string) :
  connect r = (r1, inr u) ->
  _generate_create_table_statements table_names r1 = (r2, inr statements) ->
  llm_generate_text (join " " statements) question (world r2) = (w3, inr v) ->
  truthy v = false ->
  ask question table_names r
  = ({| self := self r2; world := w3;
        calls := (calls r2 ++
                  [LoggerCall INFO "generating query using llm";
                   LlmGenerateText (join " " statements) question])%list |},
     inl (mkExc PyException "Error in 'ask' method: name 'e' is not defined"))
  /\ snd (ask question table_names r)
     <> inl (ask_error (mkExc ValueError "LLM failed to generate a SQL query.")).
Proof.
  intros H1 H2 H3 Hv.
  pose proof (sql_query_falsy (join " " statements) question r2 H3 Hv) as H4.
  assert (Hask : ask question table_names r
                 = ({| self := self r2; world := w3;
                       calls := (calls r2 ++
                                 [LoggerCall INFO "generating query using llm";
                                  LlmGenerateText (join " " statements)
                                                  question])%list |},
                    inl (ask_error (mkExc NameError "name 'e' is not defined")))).
  { apply ask_wraps. eapply raises_in_generation; eauto. }
  split.
  - exact Hask.
  - rewrite Hask. cbn [snd]. unfold ask_error. cbn [exc_str]. discriminate.
Qed.

(** C8. When the connector's [execute_query] raises on the generated SQL,
    after a connect, a schema-context build and a generation that all
    returned, [ask] raises an exception whose message starts with
    [Error in 'ask' method:], the orchestrator is still connected, and
    between the start of [ask] and its end the connector's [disconnect]
    was not called. *)
Theorem ask_execution_failure_stays_connected
        (question : option string) (table_names : option (list string))
        (r r1 r2 r3 : Run W) (u : unit) (statements : list string)
        (sql_query : string) (w4 : W) (e : Exc) :
  connect r = (r1, inr u) ->
  _generate_create_table_statements table_names r1 = (r2, inr statements) ->
  _generate_sql_query (join " " statements) question r2 = (r3, inr sql_query) ->
  connector_execute_query sql_query (world r3) = (w4, inl e) ->
  let r4 := {| self := self r3; world := w4;
               calls := (calls r3 ++ [ConnectorExecuteQuery sql_query])%list |} in
  ask question table_names r
  = (r4, inl (mkExc PyException ("Error in 'ask' method: " ++ exc_str e)))
  /\ connected (self r4) = true
  /\ no_disconnect_between r r4.
Proof.
  intros H1 H2 H3 H4 r4. split; [|split].
  - apply ask_wraps. eapply raises_in_execution; eauto.
    unfold call. rewrite H4. reflexivity.
  - unfold r4. cbn [self].
    rewrite (sql_query_keeps_self _ _ _ H3).
    apply statements_returned in H2 as (_ & ->).
    apply connect_returns in H1 as (-> & _). reflexivity.
  - apply no_disconnect_trans with r1; [eapply connect_no_disconnect; eauto|].
    apply no_disconnect_trans with r2; [eapply statements_no_disconnect; eauto|].
    apply no_disconnect_trans with r3; [eapply sql_query_no_disconnect; eauto|].
    eapply no_disconnect_new; unfold r4; cbn [calls]; reflexivity.
Qed.

(** C9. When [generate_text] returns a string [s] that is not empty, the
    one call [ask] then makes is [execute_query] on [strip s], and
    [strip s] is [s] without its leading and trailing white space:
    [s] is white space, then [strip s], then white space, and [strip s]
    neither starts nor ends with white space. *)
Theorem ask_executes_stripped_text
        (question : option string) (table_names : option (list string))
        (r r1 r2 : Run W) (u : unit) (statements : list string)
        (w3 : W) (s : string) :
  connect r = (r1, inr u) ->
  _generate_create_table_statements table_names r1 = (r2, inr statements) ->
  llm_generate_text (join " " statements) question (world r2)
  = (w3, inr (Some s)) ->
  s <> "" ->
  calls (fst (ask question table_names r))
  = (calls r2 ++ [LoggerCall INFO "generating query using llm";
                  LlmGenerateText (join " " statements) question;
                  ConnectorExecuteQuery (strip s)])%list
  /\ snd (ask question table_names r)
     = match snd (connector_execute_query (strip s) w3) with
       | inr result_df => inr result_df
       | inl e => inl (ask_error e)
       end
  /\ exists l t, s = l ++ strip s ++ t /\
                 all_space l = true /\ all_space t = true /\
                 trimmed (strip s).
Proof.
  intros H1 H2 H3 Hs.
  pose proof (sql_query_generated (join " " statements) question r2 H3 Hs) as H4.
  unfold ask, try_except, bind, raise, ret, call.
  rewrite H1, H2, H4. cbn [world calls self].
  destruct (connector_execute_query (strip s) w3) as [w4 [e|df]];
    cbn [fst snd calls].
  - rewrite <- app_assoc. repeat split; auto. apply strip_spec.
  - rewrite <- app_assoc. repeat split; auto. apply strip_spec.
Qed.

End Ask.

(** ** Runs on the scripted collaborators *)

(** The end-to-end scenario: one table [employees], the question
    "average salary", a one-cell result. *)
Example ask_average_salary :
  let out := ask (Some "average salary") None (__init__ mock_working) in
  snd out = inr one_cell /\
  connected (self (fst out)) = true /\
  calls (fst out)
  = [LoggerCall INFO "logger initialized in Pipable";
     ConnectorConnect;
     ConnectorExecuteQuery (column_info_query None);
     LoggerCall INFO "generating query using llm";
     LlmGenerateText "CREATE TABLE employees (id int, salary numeric);"
                     (Some "average salary");
     ConnectorExecuteQuery "SELECT AVG(salary) FROM employees;"].
Proof. repeat split; reflexivity. Qed.

Lemma ask_empty_generation_raises_name_error_witness :
  let r := __init__ mock_silent in
  let r1 := fst (connect r) in
  let r2 := fst (_generate_create_table_statements None r1) in
  exc_str (match snd (ask (Some "how many users") None r) with
           | inl e => e
           | inr _ => mkExc PyException ""
           end)
  = "Error in 'ask' method: name 'e' is not defined"
  /\ calls (fst (ask (Some "how many users") None r))
     = (calls r2 ++
        [LoggerCall INFO "generating query using llm";
         LlmGenerateText "CREATE TABLE users (id integer, name text);"
                         (Some "how many users")])%list.
Proof.
  intros r r1 r2.
  destruct (@ask_empty_generation_raises_name_error
              Mock mock_connector mock_llm (Some "how many users") None
              r r1 r2 tt ["CREATE TABLE users (id integer, name text);"]
              (world r2) (Some "") eq_refl eq_refl eq_refl eq_refl)
    as [Hask _].
  rewrite Hask. split; reflexivity.
Defined.

Lemma ask_wraps_every_failure_witness :
  let r' := {| self := {| connected := false; all_table_queries := None |};
               world := mock_refusing;
               calls := [LoggerCall INFO "logger initialized in Pipable";
                         ConnectorConnect;
                         LoggerCall ERROR
                           "Failed to connect to the database: connection refused"] |} in
  let cause := mkExc ConnectionError "Failed to connect to the database." in
  step_raises (Some "how many users") None (__init__ mock_refusing) r' cause /\
  ask (Some "how many users") None (__init__ mock_refusing)
  = (r', inl (mkExc PyException
                    "Error in 'ask' method: Failed to connect to the database.")).
Proof.
  intros r' cause.
  assert (H : step_raises (Some "how many users") None
                          (__init__ mock_refusing) r' cause).
  { apply raises_in_connect. reflexivity. }
  split; [exact H|].
  exact (ask_wraps_every_failure H).
Defined.

Lemma connection_failure_keeps_state_witness :
  let up := {| self := {| connected := true; all_table_queries := None |};
               world := mock_refusing; calls := [] |} in
  snd (connect (__init__ mock_refusing))
  = inl (mkExc ConnectionError "Failed to connect to the database.") /\
  self (fst (connect (__init__ mock_refusing)))
  = {| connected := false; all_table_queries := None |} /\
  snd (disconnect up)
  = inl (mkExc ConnectionError "Failed to disconnect from the database.") /\
  self (fst (disconnect up)) = self up.
Proof.
  intros up.
  destruct (@connection_failure_keeps_state Mock mock_connector) as [Hc Hd].
  rewrite (Hc (__init__ mock_refusing) mock_refusing
              (mkExc (OtherError "OperationalError") "connection refused")
              eq_refl eq_refl).
  rewrite (Hd up mock_refusing
              (mkExc (OtherError "OperationalError") "connection lost")
              eq_refl eq_refl).
  repeat split; reflexivity.
Defined.

Lemma create_table_statement_rendering_witness :
  users_rows <> [] /\
  snd (_generate_create_table_statements None (__init__ mock_silent))
  = inr ["CREATE TABLE users (id integer, name text);"].
Proof.
  split; [discriminate|].
  destruct (@create_table_statement_rendering Mock mock_connector) as [_ H].
  rewrite (H None (__init__ mock_silent)
             {| mock_connect := inr tt; mock_disconnect := inr tt;
                mock_replies := [inr one_cell]; mock_text := inr (Some "") |}
             users_rows).
  - reflexivity.
  - discriminate.
  - reflexivity.
  - reflexivity.
Defined.

Lemma second_build_returns_cache_witness :
  let r := __init__ mock_working in
  let r1 := fst (_generate_create_table_statements None r) in
  let queries := ["CREATE TABLE employees (id int, salary numeric);"] in
  _generate_create_table_statements None r = (r1, inr queries) /\
  _generate_create_table_statements (Some ["orders"]) r1 = (r1, inr queries).
Proof.
  intros r r1 queries.
  assert (H : _generate_create_table_statements None r = (r1, inr queries))
    by reflexivity.
  split; [exact H|].
  exact (@second_build_returns_cache Mock mock_connector
           None (Some ["orders"]) r r1 queries H).
Defined.

Lemma catalog_query_text_witness :
  (exists rest,
      calls (fst (_generate_create_table_statements (Some ["orders"; "users"])
                                                    (__init__ mock_working)))
      = LoggerCall INFO "logger initialized in Pipable"
        :: ConnectorExecuteQuery (column_info_query (Some ["orders"; "users"]))
        :: rest)
  /\ column_info_query (Some [])
     = nl ++ "        SELECT table_name, column_name, data_type" ++
       nl ++ "        FROM information_schema.columns" ++
       nl ++ "        WHERE table_schema = 'public';" ++
       nl ++ "        ".
Proof.
  destruct (@catalog_query_text Mock mock_connector) as (Hcall & _ & Hpublic & _).
  split.
  - exact (Hcall (Some ["orders"; "users"]) (__init__ mock_working) eq_refl).
  - exact (Hpublic (Some []) (or_intror eq_refl)).
Defined.

Lemma ask_execution_failure_stays_connected_witness :
  let r := __init__ mock_failing_query in
  exc_str (match snd (ask (Some "everything") None r) with
           | inl e => e
           | inr _ => mkExc PyException ""
           end)
  = "Error in 'ask' method: relation does not exist"
  /\ connected (self (fst (ask (Some "everything") None r))) = true.
Proof.
  intros r.
  pose (r1 := fst (connect r)).
  pose (r2 := fst (_generate_create_table_statements None r1)).
  pose (r3 := fst (_generate_sql_query
                     "CREATE TABLE users (id integer, name text);"
                     (Some "everything") r2)).
  destruct (@ask_execution_failure_stays_connected
              Mock mock_connector mock_llm (Some "everything") None
              r r1 r2 r3 tt ["CREATE TABLE users (id integer, name text);"]
              "SELECT * FROM nowhere;"
              {| mock_connect := inr tt; mock_disconnect := inr tt;
                 mock_replies := []; mock_text := inr (Some "SELECT * FROM nowhere;") |}
              (mkExc (OtherError "ProgrammingError") "relation does not exist")
              eq_refl eq_refl eq_refl eq_refl)
    as (Hask & Hconn & _).
  rewrite Hask. split; [reflexivity | exact Hconn].
Defined.

Lemma ask_executes_stripped_text_witness :
  " SELECT AVG(salary) FROM employees; " <> "" /\
  calls (fst (ask (Some "average salary") None (__init__ mock_working)))
  = [LoggerCall INFO "logger initialized in Pipable";
     ConnectorConnect;
     ConnectorExecuteQuery (column_info_query None);
     LoggerCall INFO "generating query using llm";
     LlmGenerateText "CREATE TABLE employees (id int, salary numeric);"
                     (Some "average salary");
     ConnectorExecuteQuery "SELECT AVG(salary) FROM employees;"].
Proof.
  assert (Hs : " SELECT AVG(salary) FROM employees; " <> "") by discriminate.
  split; [exact Hs|].
  pose (r := __init__ mock_working).
  pose (r1 := fst (connect r)).
  pose (r2 := fst (_generate_create_table_statements None r1)).
  destruct (@ask_executes_stripped_text
              Mock mock_connector mock_llm (Some "average salary") None
              r r1 r2 tt ["CREATE TABLE employees (id int, salary numeric);"]
              (world r2) " SELECT AVG(salary) FROM employees; "
              eq_refl eq_refl eq_refl Hs)
    as (Hcalls & _ & _).
  exact Hcalls.
Defined.

Lemma cache_guard_is_not_none_witness :
  let r := __init__ mock_working in
  let r1 := fst (_generate_create_table_statements None r) in
  all_table_queries (self r1)
  = Some ["CREATE TABLE employees (id int, salary numeric);"] /\
  _generate_create_table_statements (Some ["orders"]) r1
  = (r1, inr ["CREATE TABLE employees (id int, salary numeric);"]) /\
  all_table_queries
    (self (fst (_generate_create_table_statements None (__init__ mock_refusing))))
  = None.
Proof.
  intros r r1.
  destruct (@cache_guard_is_not_none Mock mock_connector)
    as (Hcached & _ & _ & Hbuilt & Hraised).
  assert (H1 : all_table_queries (self r1)
               = Some ["CREATE TABLE employees (id int, salary numeric);"]).
  { apply (Hbuilt None r r1). reflexivity. }
  split; [exact H1|]. split.
  - apply Hcached. exact H1.
  - apply (Hraised None (__init__ mock_refusing) _
                   (mkExc ValueError "Error generating CREATE TABLE statements.")).
    reflexivity.
Defined.

(** A sequence with a refused connection: the flag stays down. *)
Example refused_connects_leave_disconnected :
  let out := run_ops [CallConnect; CallDisconnect; CallConnect]
                     (__init__ mock_refusing) in
  connected (self (fst out)) = false /\ balance 0 (snd out) = 0%Z.
Proof. split; reflexivity. Qed.

(** A sequence with repeated calls: the second [connect()] and the second
    [disconnect()] reach the connector no more. *)
Example repeated_calls_reach_connector_once :
  let out := run_ops [CallConnect; CallConnect; CallDisconnect; CallDisconnect;
                      CallConnect]
                     (__init__ mock_working) in
  connected (self (fst out)) = true /\
  calls (fst out)
  = [LoggerCall INFO "logger initialized in Pipable";
     ConnectorConnect; ConnectorDisconnect; ConnectorConnect] /\
  balance 0 (snd out) = 1%Z.
Proof. repeat split; reflexivity. Qed.

(** * Further properties of the class *)

Lemma count_app (p : Event -> bool) (xs ys : list Event) :
  count p (xs ++ ys)%list = count p xs + count p ys.
Proof. unfold count. rewrite filter_app, length_app. reflexivity. Qed.

Lemma all_space_strip (s : string) : all_space s = true -> strip s = "".
Proof.
  unfold strip. induction s as [|c s IH]; simpl; auto.
  destruct (isspace c); simpl; [exact IH | discriminate].
Qed.

(** ** More on the connection life cycle *)

Section ConnectionMore.

Context {W : Type}.
Context {database_connector : DatabaseConnectorInterface W}.

Lemma connect_runs_connector (r : Run W) (w' : W) (u : unit) :
  connected (self r) = false ->
  connector_connect (world r) = (w', inr u) ->
  connect r
  = ({| self := {| connected := true;
                   all_table_queries := all_table_queries (self r) |};
        world := w'; calls := (calls r ++ [ConnectorConnect])%list |}, inr tt).
Proof.
  intros Hc Hcall. unfold connect, try_except, bind, call, set_connected.
  rewrite Hc, Hcall. reflexivity.
Qed.

Lemma connect_refused (r : Run W) (w' : W) (e : Exc) :
  connected (self r) = false ->
  connector_connect (world r) = (w', inl e) ->
  connect r
  = ({| self := self r; world := w';
        calls := (calls r ++
                  [ConnectorConnect;
                   LoggerCall ERROR
                     ("Failed to connect to the database: " ++ exc_str e)])%list |},
     inl (mkExc ConnectionError "Failed to connect to the database.")).
Proof.
  intros Hc Hcall.
  unfold connect, try_except, bind, call, logger, raise, record_call.
  rewrite Hc, Hcall. simpl. rewrite <- app_assoc. reflexivity.
Qed.

Lemma disconnect_runs_connector (r : Run W) (w' : W) (u : unit) :
  connected (self r) = true ->
  connector_disconnect (world r) = (w', inr u) ->
  disconnect r
  = ({| self := {| connected := false;
                   all_table_queries := all_table_queries (self r) |};
        world := w'; calls := (calls r ++ [ConnectorDisconnect])%list |}, inr tt).
Proof.
  intros Hc Hcall. unfold disconnect, try_except, bind, call, set_connected.
  rewrite Hc, Hcall. reflexivity.
Qed.

Lemma run_op_keeps_cache (o : Op) (r r1 : Run W) (res : result unit) :
  run_op o r = (r1, res) ->
  all_table_queries (self r1) = all_table_queries (self r).
Proof.
  destruct o; simpl;
    unfold connect, disconnect, try_except, bind, call, set_connected, logger,
      raise, ret, record_call.
  - destruct (connected (self r)); simpl.
    + intros [= <- _]. reflexivity.
    + destruct (connector_connect (world r)) as [w' [e|u]];
        intros [= <- _]; reflexivity.
  - destruct (connected (self r)); simpl.
    + destruct (connector_disconnect (world r)) as [w' [e|u]];
        intros [= <- _]; reflexivity.
    + intros [= <- _]. reflexivity.
Qed.

(** One call reaches the connector at most once. *)
Lemma run_op_one_connector_call (o : Op) (r r1 : Run W) (res : result unit) :
  run_op o r = (r1, res) ->
  exists new, calls r1 = (calls r ++ new)%list /\
              count is_connect new + count is_disconnect new <= 1.
Proof.
  destruct o; simpl;
    unfold connect, disconnect, try_except, bind, call, set_connected, logger,
      raise, ret, record_call.
  - destruct (connected (self r)); simpl.
    + intros [= <- _]. exists []. rewrite app_nil_r. auto.
    + destruct (connector_connect (world r)) as [w' [e|u]];
        intros [= <- _]; simpl.
      * eexists. rewrite <- app_assoc. split; [reflexivity|]. simpl. auto.
      * eexists. split; [reflexivity|]. simpl. auto.
  - destruct (connected (self r)); simpl.
    + destruct (connector_disconnect (world r)) as [w' [e|u]];
        intros [= <- _]; simpl.
      * eexists. rewrite <- app_assoc. split; [reflexivity|]. simpl. auto.
      * eexists. split; [reflexivity|]. simpl. auto.
    + intros [= <- _]. exists []. rewrite app_nil_r. auto.
Qed.

(** X1. Calling [connect()] twice in a row is the same as calling it once,
    and so is calling [disconnect()] twice: whatever the connector does,
    the second call adds nothing when the first one returned, and is not
    reached when the first one raised. *)
Theorem connect_and_disconnect_are_idempotent (r : Run W) :
  (connect ;; connect)%py r = connect r /\
  (disconnect ;; disconnect)%py r = disconnect r.
Proof.
  unfold bind. split.
  - destruct (connect r) as [r1 [e|u]] eqn:H; [reflexivity|].
    apply connect_returns in H as (Hc & _).
    rewrite (connect_when_connected r1 Hc). destruct u. reflexivity.
  - destruct (disconnect r) as [r1 [e|u]] eqn:H; [reflexivity|].
    apply disconnect_returns in H.
    rewrite (disconnect_when_disconnected r1 H). destruct u. reflexivity.
Qed.

(** X2. On a disconnected orchestrator whose connector accepts both calls,
    [connect()] followed by [disconnect()] gives the object back as it was
    (flag down, cache untouched), after exactly one [connect] and one
    [disconnect] on the connector. *)
Theorem connect_then_disconnect_restores (r : Run W) (w1 w2 : W) (u1 u2 : unit) :
  connected (self r) = false ->
  connector_connect (world r) = (w1, inr u1) ->
  connector_disconnect w1 = (w2, inr u2) ->
  (connect ;; disconnect)%py r
  = ({| self := self r; world := w2;
        calls := (calls r ++ [ConnectorConnect; ConnectorDisconnect])%list |},
     inr tt).
Proof.
  intros Hc H1 H2. unfold bind.
  rewrite (connect_runs_connector r Hc H1).
  rewrite (@disconnect_runs_connector _ w2 u2); cbn [self world connected calls];
    auto.
  rewrite <- app_assoc. destruct r as [[c q] w cs]. simpl in *. subst c.
  reflexivity.
Qed.

(** X3. No sequence of [connect()] and [disconnect()] calls touches the
    schema cache: a list cached before the sequence is still what
    [_generate_create_table_statements] returns after it, for any filter
    and without a catalog query, also across a reconnection. *)
Theorem cache_survives_reconnections (ops : list Op) :
  forall (r : Run W) (queries : list string) (table_names : option (list string)),
    all_table_queries (self r) = Some queries ->
    _generate_create_table_statements table_names (fst (run_ops ops r))
    = (fst (run_ops ops r), inr queries).
Proof.
  induction ops as [|o ops IH]; intros r queries table_names Hq; simpl.
  - apply statements_when_cached. exact Hq.
  - destruct (run_op o r) as [r1 res] eqn:Hop.
    apply run_op_keeps_cache in Hop. rewrite Hq in Hop.
    specialize (IH r1 queries table_names Hop).
    destruct (run_ops ops r1) as [r2 outcomes]. exact IH.
Qed.

(** X4. A [connect()] that raised does not latch: the next [connect()]
    calls the connector again.  The same holds of a [disconnect()] that
    raised. *)
Theorem failed_transition_is_attempted_again (r r1 : Run W) (e : Exc) :
  (connect r = (r1, inl e) ->
   exists rest, calls (fst (connect r1))
                = (calls r1 ++ ConnectorConnect :: rest)%list) /\
  (disconnect r = (r1, inl e) ->
   exists rest, calls (fst (disconnect r1))
                = (calls r1 ++ ConnectorDisconnect :: rest)%list).
Proof.
  split; intros H.
  - apply connect_raises in H as (Hs & Hc & _). rewrite <- Hs in Hc.
    unfold connect, try_except, bind, call, set_connected, logger, raise,
      record_call.
    rewrite Hc. simpl.
    destruct (connector_connect (world r1)) as [w' [e'|u]]; simpl.
    + eexists. rewrite <- app_assoc. reflexivity.
    + eexists. reflexivity.
  - apply disconnect_raises in H as (Hs & Hc & _). rewrite <- Hs in Hc.
    unfold disconnect, try_except, bind, call, set_connected, logger, raise,
      record_call.
    rewrite Hc. simpl.
    destruct (connector_disconnect (world r1)) as [w' [e'|u]]; simpl.
    + eexists. rewrite <- app_assoc. reflexivity.
    + eexists. reflexivity.
Qed.

(** X5. There is no retry inside the class: a sequence of n calls to
    [connect()] and [disconnect()] makes at most n calls on the connector,
    whatever those calls return or raise. *)
Theorem connection_calls_are_not_retried (ops : list Op) :
  forall (r : Run W),
  exists new,
    calls (fst (run_ops ops r)) = (calls r ++ new)%list /\
    count is_connect new + count is_disconnect new <= length ops.
Proof.
  induction ops as [|o ops IH]; intros r; simpl.
  - exists []. rewrite app_nil_r. auto.
  - destruct (run_op o r) as [r1 res] eqn:Hop.
    apply run_op_one_connector_call in Hop as (n1 & H1 & B1).
    destruct (IH r1) as (n2 & H2 & B2).
    destruct (run_ops ops r1) as [r2 outcomes]. simpl in *.
    exists (n1 ++ n2)%list. split.
    + rewrite H2, H1, app_assoc. reflexivity.
    + rewrite !count_app. lia.
Qed.

End ConnectionMore.

(** ** More on the schema-context builder *)

Lemma ascii_compare_refl (a : ascii) : Ascii.compare a a = Eq.
Proof. unfold Ascii.compare. apply N.compare_refl. Qed.

Lemma ascii_compare_lt_trans (a b c : ascii) :
  Ascii.compare a b = Lt -> Ascii.compare b c = Lt -> Ascii.compare a c = Lt.
Proof.
  unfold Ascii.compare. rewrite !N.compare_lt_iff. apply N.lt_trans.
Qed.

Lemma string_compare_refl (s : string) : String.compare s s = Eq.
Proof.
  induction s as [|a s IH]; simpl; auto. rewrite ascii_compare_refl. exact IH.
Qed.

Lemma string_compare_lt_trans (s1 : string) :
  forall s2 s3,
    String.compare s1 s2 = Lt -> String.compare s2 s3 = Lt ->
    String.compare s1 s3 = Lt.
Proof.
  induction s1 as [|a s1 IH]; intros [|b s2] [|c s3]; simpl;
    try discriminate; auto.
  destruct (Ascii.compare a b) eqn:Eab; try discriminate;
    destruct (Ascii.compare b c) eqn:Ebc; try discriminate; intros H12 H23.
  - apply Ascii.compare_eq_iff in Eab, Ebc. subst b c.
    rewrite ascii_compare_refl. eapply IH; eauto.
  - apply Ascii.compare_eq_iff in Eab. subst b. rewrite Ebc. reflexivity.
  - apply Ascii.compare_eq_iff in Ebc. subst c. rewrite Eab. reflexivity.
  - rewrite (ascii_compare_lt_trans _ _ _ Eab Ebc). reflexivity.
Qed.

Lemma insert_key_sorted (k : string) (ks : list string) :
  strictly_sorted ks -> strictly_sorted (insert_key k ks).
Proof.
  induction ks as [|k' ks IH]; simpl.
  - intros _. split; [intros y []|exact I].
  - intros [Hlt Hs]. destruct (String.compare k k') eqn:Hcmp; simpl.
    + split; assumption.
    + split; [|split; assumption].
      intros y [<-|Hy]; [exact Hcmp|].
      eapply string_compare_lt_trans; [exact Hcmp | apply Hlt; exact Hy].
    + split; [|apply IH; exact Hs].
      intros y Hy. apply insert_key_In in Hy as [->|Hy]; [|apply Hlt; exact Hy].
      rewrite String.compare_antisym, Hcmp. reflexivity.
Qed.

Lemma group_keys_sorted (keys : list string) : strictly_sorted (group_keys keys).
Proof.
  induction keys as [|k keys IH]; simpl; [exact I|].
  apply insert_key_sorted. exact IH.
Qed.

Lemma strictly_sorted_NoDup (l : list string) : strictly_sorted l -> NoDup l.
Proof.
  induction l as [|x l IH]; simpl; intros H; constructor.
  - intros Hin. destruct H as [Hlt _]. specialize (Hlt x Hin).
    rewrite string_compare_refl in Hlt. discriminate.
  - apply IH. tauto.
Qed.

Lemma mapM_length {A B : Type} (f : A -> result B) (l : list A) :
  forall ys, mapM f l = inr ys -> length ys = length l.
Proof.
  induction l as [|x l IH]; simpl; intros ys.
  - intros [= <-]. reflexivity.
  - destruct (f x) as [e|y]; [discriminate|].
    destruct (mapM f l) as [e|ys']; [discriminate|].
    intros [= <-]. simpl. f_equal. apply IH. reflexivity.
Qed.

Lemma mapM_In {A B : Type} (f : A -> result B) (l : list A) :
  forall ys, mapM f l = inr ys ->
             forall y, In y ys -> exists x, In x l /\ f x = inr y.
Proof.
  induction l as [|x l IH]; simpl; intros ys.
  - intros [= <-] y [].
  - destruct (f x) as [e|y0] eqn:Hfx; [discriminate|].
    destruct (mapM f l) as [e|ys'] eqn:Hm; [discriminate|].
    intros [= <-] y [<-|Hy].
    + exists x. auto.
    + destruct (IH ys' eq_refl y Hy) as (x' & Hin & Hf). exists x'. auto.
Qed.

(** A frame that lacks one of the three columns the builder reads cannot be
    rendered: without [table_name] the grouping fails, without
    [column_name] or [data_type] the first row of the first group does. *)
Lemma create_table_statements_missing_column (df : DataFrame) :
  index_of "table_name" (df_columns df) = None \/
  (df_rows df <> [] /\
   (index_of "column_name" (df_columns df) = None \/
    index_of "data_type" (df_columns df) = None)) ->
  exists e, create_table_statements df = inl e.
Proof.
  intros H. unfold create_table_statements, groupby_apply_items.
  destruct (groupby df "table_name") as [e|groups] eqn:Hg; [eauto|].
  destruct H as [Hnone | (Hrows & Hcol)].
  { unfold groupby in Hg. rewrite Hnone in Hg. discriminate. }
  unfold groupby in Hg.
  destruct (index_of "table_name" (df_columns df)) as [i|]; [|discriminate].
  destruct (1 <? length (filter (String.eqb "table_name") (df_columns df)))%nat;
    [discriminate|].
  destruct (mapM (fun row => getitem (df_columns df) row "table_name")
                 (df_rows df)) as [e|keys] eqn:Hkeys; [discriminate|].
  injection Hg as <-.
  assert (Hk : group_keys keys <> []).
  { apply group_keys_not_nil. intros ->. apply mapM_length in Hkeys.
    destruct (df_rows df); [congruence | discriminate]. }
  destruct (group_keys keys) as [|k ks] eqn:Ek; [congruence|].
  assert (Hin : In k keys).
  { apply group_keys_In. rewrite Ek. left. reflexivity. }
  destruct (mapM_In _ _ Hkeys k Hin) as (row & Hrow & Hget).
  cbn [map mapM snd fst].
  set (group_rows := filter _ (df_rows df)).
  assert (Hgr : In row group_rows).
  { unfold group_rows. apply filter_In. split; [exact Hrow|].
    rewrite Hget. apply String.eqb_refl. }
  assert (Hfail : exists e, columns_of_group (mkDataFrame (df_columns df) group_rows)
                            = inl e).
  { unfold columns_of_group. cbn [df_columns df_rows].
    destruct group_rows as [|row0 others]; [destruct Hgr|].
    cbn [mapM]. unfold getitem at 1.
    destruct Hcol as [Hc | Hd].
    - rewrite Hc. eauto.
    - destruct (index_of "column_name" (df_columns df)) as [j|]; [|eauto].
      destruct (nth_error row0 j); [|eauto].
      unfold getitem at 1. rewrite Hd. eauto. }
  destruct Hfail as [e He]. rewrite He. eauto.
Qed.

Section SchemaContextMore.

Context {W : Type}.
Context {database_connector : DatabaseConnectorInterface W}.

Lemma statements_query_raises (table_names : option (list string))
      (r : Run W) (w' : W) (e : Exc) :
  all_table_queries (self r) = None ->
  connector_execute_query (column_info_query table_names) (world r)
  = (w', inl e) ->
  _generate_create_table_statements table_names r
  = ({| self := self r; world := w';
        calls := (calls r ++
                  [ConnectorExecuteQuery (column_info_query table_names);
                   LoggerCall ERROR
                     ("Error generating CREATE TABLE statements: "
                        ++ exc_str e)])%list |},
     inl (mkExc ValueError "Error generating CREATE TABLE statements.")).
Proof.
  intros Hnone Hq.
  unfold _generate_create_table_statements, try_except, bind, call, logger,
    raise, record_call.
  rewrite Hnone, Hq. simpl. rewrite <- app_assoc. reflexivity.
Qed.

Lemma statements_frame_rejected (table_names : option (list string))
      (r : Run W) (w' : W) (df : DataFrame) (e : Exc) :
  all_table_queries (self r) = None ->
  connector_execute_query (column_info_query table_names) (world r)
  = (w', inr df) ->
  create_table_statements df = inl e ->
  _generate_create_table_statements table_names r
  = ({| self := self r; world := w';
        calls := (calls r ++
                  [ConnectorExecuteQuery (column_info_query table_names);
                   LoggerCall ERROR
                     ("Error generating CREATE TABLE statements: "
                        ++ exc_str e)])%list |},
     inl (mkExc ValueError "Error generating CREATE TABLE statements.")).
Proof.
  intros Hnone Hq He.
  unfold _generate_create_table_statements, try_except, bind, call, logger,
    raise, record_call.
  rewrite Hnone, Hq, He. simpl. rewrite <- app_assoc. reflexivity.
Qed.

(** X6. A build that raises always raises the same [ValueError], whatever
    went wrong underneath, leaves the object as it was, and is not
    remembered: the next call queries the catalog again, with the filter of
    that next call. *)
Theorem failed_build_is_not_cached
        (table_names : option (list string)) (r r1 : Run W) (e : Exc) :
  _generate_create_table_statements table_names r = (r1, inl e) ->
  e = mkExc ValueError "Error generating CREATE TABLE statements." /\
  self r1 = self r /\
  forall table_names2 : option (list string),
  exists rest,
    calls (fst (_generate_create_table_statements table_names2 r1))
    = (calls r1 ++
       ConnectorExecuteQuery (column_info_query table_names2) :: rest)%list.
Proof.
  intros H. apply statements_raised in H as (Hs & Hn & He).
  repeat split; auto.
  intros table_names2. apply statements_when_not_cached.
  rewrite Hs. exact Hn.
Qed.

(** X7. When the frame the catalog query returns lacks the [table_name]
    column, or has rows but lacks the [column_name] or the [data_type]
    column, the builder raises its [ValueError] after the one catalog query
    and one line of error log, and the cache stays empty. *)
Theorem frame_without_expected_columns_is_rejected
        (table_names : option (list string)) (r : Run W) (w' : W)
        (df : DataFrame) :
  all_table_queries (self r) = None ->
  connector_execute_query (column_info_query table_names) (world r)
  = (w', inr df) ->
  index_of "table_name" (df_columns df) = None \/
  (df_rows df <> [] /\
   (index_of "column_name" (df_columns df) = None \/
    index_of "data_type" (df_columns df) = None)) ->
  exists detail,
    _generate_create_table_statements table_names r
    = ({| self := self r; world := w';
          calls := (calls r ++
                    [ConnectorExecuteQuery (column_info_query table_names);
                     LoggerCall ERROR
                       ("Error generating CREATE TABLE statements: "
                          ++ detail)])%list |},
       inl (mkExc ValueError "Error generating CREATE TABLE statements.")).
Proof.
  intros Hnone Hq Hcols.
  destruct (create_table_statements_missing_column df Hcols) as [e He].
  exists (exc_str e). eapply statements_frame_rejected; eassumption.
Qed.

End SchemaContextMore.

(** X8. Catalog rows that are not empty render to exactly one statement per
    distinct table name, in increasing order of the table names, however
    the rows of the tables are interleaved; the columns of a table keep
    the order of the rows. *)
Theorem one_statement_per_table (rows : list (string * string * string)) :
  rows <> [] ->
  exists tables,
    create_table_statements (catalog_frame rows)
    = inr (map (fun t =>
                  "CREATE TABLE " ++ t ++ " (" ++
                  join ", " (map (fun row => row_column row ++ " " ++ row_type row)
                                 (filter (fun row => String.eqb (row_table row) t)
                                         rows)) ++ ");")
               tables) /\
    strictly_sorted tables /\ NoDup tables /\
    (forall t, In t tables <-> In t (map row_table rows)).
Proof.
  intros Hrows. exists (group_keys (map row_table rows)).
  split; [|split; [|split]].
  - apply create_table_statements_catalog. exact Hrows.
  - apply group_keys_sorted.
  - apply strictly_sorted_NoDup, group_keys_sorted.
  - intros t. apply group_keys_In.
Qed.

(** ** More on [ask] *)

Section AskMore.

Context {W : Type}.
Context {database_connector : DatabaseConnectorInterface W}.
Context {llm_api_client : LlmApiClientInterface W}.

Lemma sql_query_client_raises (context : string) (question : option string)
      (r : Run W) (w' : W) (e : Exc) :
  llm_generate_text context question (world r) = (w', inl e) ->
  _generate_sql_query context question r
  = ({| self := self r; world := w';
        calls := (calls r ++ [LoggerCall INFO "generating query using llm";
                              LlmGenerateText context question])%list |},
     inl e).
Proof.
  intros Hllm.
  unfold _generate_sql_query, bind, logger, call, record_call.
  cbn [world self calls]. rewrite Hllm. rewrite <- app_assoc. reflexivity.
Qed.

Lemma connect_keeps (r r' : Run W) (res : result unit) :
  connect r = (r', res) ->
  (connected (self r) = true -> connected (self r') = true) /\
  all_table_queries (self r') = all_table_queries (self r).
Proof.
  intros H. split.
  - intros Hc. rewrite (connect_when_connected r Hc) in H.
    injection H as <- _. exact Hc.
  - exact (@run_op_keeps_cache W _ CallConnect r r' res H).
Qed.

Lemma statements_keep (table_names : option (list string))
      (r r' : Run W) (res : result (list string)) :
  _generate_create_table_statements table_names r = (r', res) ->
  connected (self r') = connected (self r) /\
  (forall l, all_table_queries (self r) = Some l ->
             all_table_queries (self r') = Some l).
Proof.
  intros H. split.
  - destruct res as [e|qs].
    + apply statements_raised in H as (-> & _). reflexivity.
    + apply statements_returned in H. tauto.
  - intros l Hl. rewrite (statements_when_cached table_names r Hl) in H.
    injection H as <- _. exact Hl.
Qed.

Lemma adds_within_trans (r1 r2 r3 : Run W) (c1 d1 x1 g1 c2 d2 x2 g2 : nat) :
  adds_within r1 r2 c1 d1 x1 g1 -> adds_within r2 r3 c2 d2 x2 g2 ->
  adds_within r1 r3 (c1 + c2) (d1 + d2) (x1 + x2) (g1 + g2).
Proof.
  intros (n1 & H1 & A1 & B1 & C1 & D1) (n2 & H2 & A2 & B2 & C2 & D2).
  exists (n1 ++ n2)%list. rewrite H2, H1, app_assoc, !count_app.
  repeat split; lia.
Qed.

Lemma adds_within_new (r r' : Run W) (new : list Event) (c d x g : nat) :
  calls r' = (calls r ++ new)%list ->
  count is_connect new <= c -> count is_disconnect new <= d ->
  count is_execute_query new <= x -> count is_generate_text new <= g ->
  adds_within r r' c d x g.
Proof. intros. exists new. auto. Qed.

Lemma connect_adds (r r' : Run W) (res : result unit) :
  connect r = (r', res) -> adds_within r r' 1 0 0 0.
Proof.
  unfold connect, try_except, bind, call, set_connected, logger, raise, ret,
    record_call.
  destruct (connected (self r)); cbn [negb].
  - intros [= <- _]. apply adds_within_new with (new := []); unfold count; simpl; auto.
    rewrite app_nil_r. reflexivity.
  - destruct (connector_connect (world r)) as [w' [e|v]]; intros [= <- _].
    + eapply adds_within_new; cbn [calls];
        [rewrite <- app_assoc; reflexivity | unfold count; simpl; lia ..].
    + eapply adds_within_new; cbn [calls]; [reflexivity | unfold count; simpl; lia ..].
Qed.

Lemma statements_add (table_names : option (list string))
      (r r' : Run W) (res : result (list string)) :
  _generate_create_table_statements table_names r = (r', res) ->
  adds_within r r' 0 0 1 0.
Proof.
  unfold _generate_create_table_statements, try_except, bind, call,
    set_all_table_queries, logger, raise, ret, record_call.
  destruct (all_table_queries (self r)).
  - intros [= <- _]. apply adds_within_new with (new := []); unfold count; simpl; auto.
    rewrite app_nil_r. reflexivity.
  - destruct (connector_execute_query (column_info_query table_names) (world r))
      as [w' [e|df]].
    + intros [= <- _]. eapply adds_within_new; cbn [calls];
        [rewrite <- app_assoc; reflexivity | unfold count; simpl; lia ..].
    + destruct (create_table_statements df) as [e|qs]; intros [= <- _].
      * eapply adds_within_new; cbn [calls];
          [rewrite <- app_assoc; reflexivity | unfold count; simpl; lia ..].
      * eapply adds_within_new; cbn [calls]; [reflexivity | unfold count; simpl; lia ..].
Qed.

Lemma sql_query_adds (context : string) (question : option string)
      (r r' : Run W) (res : result string) :
  _generate_sql_query context question r = (r', res) ->
  adds_within r r' 0 0 0 1.
Proof.
  unfold _generate_sql_query, bind, logger, call, record_call, ret.
  cbn [world self calls].
  destruct (llm_generate_text context question (world r)) as [w' [e|v]].
  - intros [= <- _]. eapply adds_within_new; cbn [calls];
      [rewrite <- app_assoc; reflexivity | unfold count; simpl; lia ..].
  - destruct (negb (truthy v)).
    + unfold load_name, raise. cbn [find fst String.eqb Ascii.eqb Bool.eqb].
      intros [= <- _]. eapply adds_within_new; cbn [calls];
        [rewrite <- app_assoc; reflexivity | unfold count; simpl; lia ..].
    + intros [= <- _]. eapply adds_within_new; cbn [calls];
        [rewrite <- app_assoc; reflexivity | unfold count; simpl; lia ..].
Qed.

Lemma execute_adds (sql : string) (r r' : Run W) (res : result DataFrame) :
  call (ConnectorExecuteQuery sql) (connector_execute_query sql) r = (r', res) ->
  adds_within r r' 0 0 1 0 /\ self r' = self r.
Proof.
  unfold call. destruct (connector_execute_query sql (world r)) as [w' res'].
  intros [= <- _]. split; [|reflexivity].
  eapply adds_within_new; cbn [calls]; [reflexivity | unfold count; simpl; lia ..].
Qed.

Lemma adds_within_weaken (r r' : Run W) (c d x g c' d' x' g' : nat) :
  adds_within r r' c d x g ->
  c <= c' -> d <= d' -> x <= x' -> g <= g' ->
  adds_within r r' c' d' x' g'.
Proof.
  intros (new & H & A & B & C & D) ? ? ? ?. exists new.
  repeat split; auto; lia.
Qed.

(** X9. When every step works, [ask] returns the very frame the connector
    gave for the stripped query, leaves the orchestrator connected with
    the statements cached, and the language model was given those
    statements joined by single spaces as its context. *)
Theorem ask_returns_the_query_result
        (question : option string) (table_names : option (list string))
        (r r1 r2 : Run W) (u : unit) (statements : list string)
        (w3 w4 : W) (s : string) (result_df : DataFrame) :
  connect r = (r1, inr u) ->
  _generate_create_table_statements table_names r1 = (r2, inr statements) ->
  llm_generate_text (join " " statements) question (world r2)
  = (w3, inr (Some s)) ->
  s <> "" ->
  connector_execute_query (strip s) w3 = (w4, inr result_df) ->
  ask question table_names r
  = ({| self := self r2; world := w4;
        calls := (calls r2 ++
                  [LoggerCall INFO "generating query using llm";
                   LlmGenerateText (join " " statements) question;
                   ConnectorExecuteQuery (strip s)])%list |},
     inr result_df)
  /\ connected (self r2) = true
  /\ all_table_queries (self r2) = Some statements.
Proof.
  intros H1 H2 H3 Hs H4.
  pose proof (sql_query_generated (join " " statements) question r2 H3 Hs) as H5.
  split; [|split].
  - unfold ask, try_except, bind, ret, call.
    rewrite H1, H2, H5. cbn [world self calls]. rewrite H4.
    rewrite <- app_assoc. reflexivity.
  - apply statements_returned in H2 as (_ & ->).
    apply connect_returns in H1. tauto.
  - apply statements_returned in H2. tauto.
Qed.

(** X10. Whatever [ask] raises is of class [Exception] itself and carries
    the prefix [Error in 'ask' method: ] before the message of a step that
    raised: no [ConnectionError], [ValueError] or collaborator exception
    ever leaves [ask] as such. *)
Theorem ask_raises_only_generic_exceptions
        (question : option string) (table_names : option (list string))
        (r r' : Run W) (x : Exc) :
  ask question table_names r = (r', inl x) ->
  exc_kind x = PyException /\
  exists cause,
    step_raises question table_names r r' cause /\
    exc_str x = "Error in 'ask' method: " ++ exc_str cause.
Proof.
  intros H. apply ask_raises_only_wrapped in H as (cause & Hstep & ->).
  split; [reflexivity|]. exists cause. split; [exact Hstep | reflexivity].
Qed.

(** X11. What the connector says when it refuses the connection, or when
    the catalog query fails, never reaches the caller of [ask]: the
    message is [Error in 'ask' method: Failed to connect to the database.]
    in the first case and
    [Error in 'ask' method: Error generating CREATE TABLE statements.] in
    the second, whatever the underlying exception. *)
Theorem ask_hides_connector_details
        (question : option string) (table_names : option (list string))
        (r : Run W) :
  (forall (w' : W) (e : Exc),
      connected (self r) = false ->
      connector_connect (world r) = (w', inl e) ->
      snd (ask question table_names r)
      = inl (mkExc PyException
                   "Error in 'ask' method: Failed to connect to the database.")) /\
  (forall (r1 : Run W) (u : unit) (w' : W) (e : Exc),
      connect r = (r1, inr u) ->
      all_table_queries (self r1) = None ->
      connector_execute_query (column_info_query table_names) (world r1)
      = (w', inl e) ->
      snd (ask question table_names r)
      = inl (mkExc PyException
                   "Error in 'ask' method: Error generating CREATE TABLE statements.")).
Proof.
  split.
  - intros w' e Hc Hcall.
    unfold ask, try_except, bind, raise.
    rewrite (connect_refused r Hc Hcall). reflexivity.
  - intros r1 u w' e H1 Hnone Hq.
    unfold ask, try_except, bind, raise.
    rewrite H1, (statements_query_raises table_names r1 Hnone Hq). reflexivity.
Qed.

(** X12. When the language-model client raises, [ask] wraps the client's
    own message, calls the connector no further, and leaves the
    orchestrator connected with the statements cached. *)
Theorem ask_llm_failure
        (question : option string) (table_names : option (list string))
        (r r1 r2 : Run W) (u : unit) (statements : list string)
        (w3 : W) (e : Exc) :
  connect r = (r1, inr u) ->
  _generate_create_table_statements table_names r1 = (r2, inr statements) ->
  llm_generate_text (join " " statements) question (world r2) = (w3, inl e) ->
  ask question table_names r
  = ({| self := self r2; world := w3;
        calls := (calls r2 ++
                  [LoggerCall INFO "generating query using llm";
                   LlmGenerateText (join " " statements) question])%list |},
     inl (mkExc PyException ("Error in 'ask' method: " ++ exc_str e)))
  /\ connected (self r2) = true
  /\ all_table_queries (self r2) = Some statements.
Proof.
  intros H1 H2 H3.
  split; [|split].
  - unfold ask, try_except, bind, raise.
    rewrite H1, H2, (sql_query_client_raises _ _ r2 H3). reflexivity.
  - apply statements_returned in H2 as (_ & ->).
    apply connect_returns in H1. tauto.
  - apply statements_returned in H2. tauto.
Qed.

(** X13. One call of [ask] only adds calls, and among them at most one
    [connect] and no [disconnect] on the connector, at most two
    [execute_query] (the catalog query and the generated query) and at most
    one [generate_text]: nothing is retried and the connection is never
    closed, on any path. *)
Theorem ask_call_budget
        (question : option string) (table_names : option (list string))
        (r : Run W) :
  exists new,
    calls (fst (ask question table_names r)) = (calls r ++ new)%list /\
    count is_connect new <= 1 /\ count is_disconnect new = 0 /\
    count is_execute_query new <= 2 /\ count is_generate_text new <= 1.
Proof.
  assert (H : adds_within r (fst (ask question table_names r)) 1 0 2 1).
  { unfold ask, try_except, bind, raise, ret.
    destruct (connect r) as [r1 [e1|u]] eqn:H1; cbn [fst].
    { apply connect_adds in H1.
      eapply adds_within_weaken; [exact H1 | lia ..]. }
    apply connect_adds in H1.
    destruct (_generate_create_table_statements table_names r1)
      as [r2 [e2|st]] eqn:H2; cbn [fst].
    { apply statements_add in H2.
      eapply adds_within_weaken;
        [exact (adds_within_trans H1 H2) | lia ..]. }
    apply statements_add in H2.
    pose proof (adds_within_trans H1 H2) as H12.
    destruct (_generate_sql_query (join " " st) question r2)
      as [r3 [e3|sql]] eqn:H3; cbn [fst].
    { apply sql_query_adds in H3.
      eapply adds_within_weaken;
        [exact (adds_within_trans H12 H3) | lia ..]. }
    apply sql_query_adds in H3.
    pose proof (adds_within_trans H12 H3) as H123.
    destruct (call (ConnectorExecuteQuery sql) (connector_execute_query sql) r3)
      as [r4 [e4|df]] eqn:H4; cbn [fst];
      apply execute_adds in H4 as (H4 & _);
      (eapply adds_within_weaken;
       [exact (adds_within_trans H123 H4) | lia ..]). }
  destruct H as (new & Hc & A & B & C & D).
  exists new. repeat split; auto; lia.
Qed.

(** X14. [ask] never takes the connection down and never empties the
    cache: an orchestrator that was connected before [ask] is connected
    after it, and a list that was cached before is still cached after,
    whether [ask] returns or raises. *)
Theorem ask_keeps_connection_and_cache
        (question : option string) (table_names : option (list string))
        (r : Run W) :
  (connected (self r) = true ->
   connected (self (fst (ask question table_names r))) = true) /\
  (forall queries,
      all_table_queries (self r) = Some queries ->
      all_table_queries (self (fst (ask question table_names r)))
      = Some queries).
Proof.
  assert (H : forall r', fst (ask question table_names r) = r' ->
                (connected (self r) = true -> connected (self r') = true) /\
                (forall queries, all_table_queries (self r) = Some queries ->
                                 all_table_queries (self r') = Some queries)).
  { intros r'. unfold ask, try_except, bind, raise, ret.
    destruct (connect r) as [r1 [e1|u]] eqn:H1; cbn [fst].
    { intros <-. apply connect_keeps in H1 as (Hc & Hq).
      split; [exact Hc | intros l Hl; rewrite Hq; exact Hl]. }
    apply connect_keeps in H1 as (Hc1 & Hq1).
    destruct (_generate_create_table_statements table_names r1)
      as [r2 [e2|st]] eqn:H2; cbn [fst].
    { intros <-. apply statements_keep in H2 as (Hc2 & Hq2).
      split; [rewrite Hc2; exact Hc1
             | intros l Hl; apply Hq2; rewrite Hq1; exact Hl]. }
    apply statements_keep in H2 as (Hc2 & Hq2).
    destruct (_generate_sql_query (join " " st) question r2)
      as [r3 [e3|sql]] eqn:H3; cbn [fst].
    { intros <-. apply sql_query_keeps_self in H3. rewrite H3.
      split; [rewrite Hc2; exact Hc1
             | intros l Hl; apply Hq2; rewrite Hq1; exact Hl]. }
    apply sql_query_keeps_self in H3.
    destruct (call (ConnectorExecuteQuery sql) (connector_execute_query sql) r3)
      as [r4 [e4|df]] eqn:H4; cbn [fst];
      apply execute_adds in H4 as (_ & H4); intros <-; rewrite H4, H3;
      (split; [rewrite Hc2; exact Hc1
              | intros l Hl; apply Hq2; rewrite Hq1; exact Hl]). }
  exact (H _ eq_refl).
Qed.

(** X15. Once statements are cached, [ask] no longer looks at its
    [table_names] argument: two calls that differ only in that argument
    do exactly the same. *)
Theorem ask_ignores_table_names_once_cached
        (question : option string)
        (table_names1 table_names2 : option (list string))
        (r : Run W) (queries : list string) :
  all_table_queries (self r) = Some queries ->
  ask question table_names1 r = ask question table_names2 r.
Proof.
  intros Hq. unfold ask, try_except, bind.
  destruct (connect r) as [r1 [e1|u]] eqn:H1; [reflexivity|].
  apply connect_keeps in H1 as (_ & Hq1). rewrite Hq in Hq1.
  rewrite (statements_when_cached table_names1 r1 Hq1).
  rewrite (statements_when_cached table_names2 r1 Hq1).
  reflexivity.
Qed.

(** X16. The test for an empty generation comes before the stripping: when
    the language model returns white space only, the text counts as
    generated and [ask] sends the empty string to [execute_query]. *)
Theorem ask_executes_empty_sql_on_blank_text
        (question : option string) (table_names : option (list string))
        (r r1 r2 : Run W) (u : unit) (statements : list string)
        (w3 : W) (s : string) :
  connect r = (r1, inr u) ->
  _generate_create_table_statements table_names r1 = (r2, inr statements) ->
  llm_generate_text (join " " statements) question (world r2)
  = (w3, inr (Some s)) ->
  s <> "" ->
  all_space s = true ->
  calls (fst (ask question table_names r))
  = (calls r2 ++ [LoggerCall INFO "generating query using llm";
                  LlmGenerateText (join " " statements) question;
                  ConnectorExecuteQuery ""])%list.
Proof.
  intros H1 H2 H3 Hs Hsp.
  pose proof (sql_query_generated (join " " statements) question r2 H3 Hs) as H4.
  rewrite (all_space_strip s Hsp) in H4.
  unfold ask, try_except, bind, raise, ret, call.
  rewrite H1, H2, H4. cbn [world calls self].
  destruct (connector_execute_query "" w3) as [w4 [e|df]];
    cbn [fst calls]; rewrite <- app_assoc; reflexivity.
Qed.

(** X17. On a fresh orchestrator whose connector accepts the connection,
    [ask] first connects and then queries the catalog with the filter made
    from its own [table_names]; whatever follows comes after these two
    calls. *)
Theorem first_ask_connects_then_queries_catalog
        (question : option string) (table_names : option (list string))
        (w w1 : W) (u : unit) :
  connector_connect w = (w1, inr u) ->
  exists rest,
    calls (fst (ask question table_names (__init__ w)))
    = ([LoggerCall INFO "logger initialized in Pipable";
        ConnectorConnect;
        ConnectorExecuteQuery (column_info_query table_names)] ++ rest)%list.
Proof.
  intros Hc.
  pose proof (@connect_runs_connector W _ (__init__ w) w1 u eq_refl Hc) as H1.
  cbn [__init__ self world calls all_table_queries app] in H1.
  set (r1 := {| self := {| connected := true; all_table_queries := None |};
                world := w1;
                calls := [LoggerCall INFO "logger initialized in Pipable";
                          ConnectorConnect] |}) in *.
  destruct (statements_when_not_cached table_names r1 eq_refl) as [rest2 H2].
  unfold ask, try_except, bind, raise, ret. rewrite H1.
  destruct (_generate_create_table_statements table_names r1)
    as [r2 [e2|st]] eqn:Hgen; cbn [fst] in *.
  { exists rest2. rewrite H2. reflexivity. }
  destruct (_generate_sql_query (join " " st) question r2)
    as [r3 [e3|sql]] eqn:H3; cbn [fst].
  { apply sql_query_adds in H3 as (n3 & H3 & _).
    exists (rest2 ++ n3)%list. rewrite H3, H2. cbn [r1 calls app].
    reflexivity. }
  apply sql_query_adds in H3 as (n3 & H3 & _).
  destruct (call (ConnectorExecuteQuery sql) (connector_execute_query sql) r3)
    as [r4 [e4|df]] eqn:H4; cbn [fst];
    apply execute_adds in H4 as ((n4 & H4 & _) & _);
    exists (rest2 ++ n3 ++ n4)%list; rewrite H4, H3, H2; cbn [r1 calls app];
    rewrite <- ?app_assoc; reflexivity.
Qed.

(** The calls of [_generate_sql_query] are the same on every path. *)
Lemma sql_query_calls (context : string) (question : option string)
      (r r' : Run W) (res : result string) :
  _generate_sql_query context question r = (r', res) ->
  calls r' = (calls r ++ [LoggerCall INFO "generating query using llm";
                          LlmGenerateText context question])%list.
Proof.
  unfold _generate_sql_query, bind, logger, call, record_call, ret.
  cbn [world self calls].
  destruct (llm_generate_text context question (world r)) as [w' [e|v]].
  - intros [= <- _]. cbn [calls]. rewrite <- app_assoc. reflexivity.
  - destruct (negb (truthy v)).
    + unfold load_name, raise. cbn [find fst String.eqb Ascii.eqb Bool.eqb].
      intros [= <- _]. cbn [calls]. rewrite <- app_assoc. reflexivity.
    + intros [= <- _]. cbn [calls]. rewrite <- app_assoc. reflexivity.
Qed.

(** After its [connect] step, [ask] only adds calls. *)
Lemma ask_extends_connect (question : option string)
      (table_names : option (list string)) (r r1 : Run W) (res : result unit) :
  connect r = (r1, res) ->
  exists rest, calls (fst (ask question table_names r)) = (calls r1 ++ rest)%list.
Proof.
  intros H1. unfold ask, try_except, bind, raise, ret. rewrite H1.
  destruct res as [e1|u]; cbn [fst].
  { exists []. rewrite app_nil_r. reflexivity. }
  destruct (_generate_create_table_statements table_names r1)
    as [r2 [e2|st]] eqn:H2; cbn [fst];
    apply statements_add in H2 as (n2 & H2 & _).
  { exists n2. exact H2. }
  destruct (_generate_sql_query (join " " st) question r2)
    as [r3 [e3|sql]] eqn:H3; cbn [fst];
    apply sql_query_adds in H3 as (n3 & H3 & _).
  { exists (n2 ++ n3)%list. rewrite H3, H2, app_assoc. reflexivity. }
  destruct (call (ConnectorExecuteQuery sql) (connector_execute_query sql) r3)
    as [r4 [e4|df]] eqn:H4; cbn [fst];
    apply execute_adds in H4 as ((n4 & H4 & _) & _);
    exists (n2 ++ n3 ++ n4)%list; rewrite H4, H3, H2, !app_assoc; reflexivity.
Qed.

(** X18. On an orchestrator that is connected and has statements cached,
    [ask] goes straight to the language model, with the cached statements
    as context whatever its [table_names]: no [connect], no catalog query.
    What follows is decided by the answer of the model alone: when the
    client raises, or returns [None] or the empty string, [ask] raises
    with no further call; when it returns a string [s] that is not empty,
    the one further call is [execute_query] on [strip s], whose frame
    [ask] returns and whose exception [ask] wraps. *)
Theorem warm_ask_goes_straight_to_the_model
        (question : option string) (table_names : option (list string))
        (r : Run W) (queries : list string) :
  connected (self r) = true ->
  all_table_queries (self r) = Some queries ->
  let asked := [LoggerCall INFO "generating query using llm";
                LlmGenerateText (join " " queries) question] in
  (forall (w' : W) (e : Exc),
      llm_generate_text (join " " queries) question (world r) = (w', inl e) ->
      ask question table_names r
      = ({| self := self r; world := w'; calls := (calls r ++ asked)%list |},
         inl (mkExc PyException ("Error in 'ask' method: " ++ exc_str e)))) /\
  (forall (w' : W) (v : option string),
      llm_generate_text (join " " queries) question (world r) = (w', inr v) ->
      truthy v = false ->
      ask question table_names r
      = ({| self := self r; world := w'; calls := (calls r ++ asked)%list |},
         inl (mkExc PyException
                    "Error in 'ask' method: name 'e' is not defined"))) /\
  (forall (w' w'' : W) (s : string) (outcome : result DataFrame),
      llm_generate_text (join " " queries) question (world r)
      = (w', inr (Some s)) ->
      s <> "" ->
      connector_execute_query (strip s) w' = (w'', outcome) ->
      ask question table_names r
      = ({| self := self r; world := w'';
            calls := (calls r ++ asked
                        ++ [ConnectorExecuteQuery (strip s)])%list |},
         match outcome with
         | inr result_df => inr result_df
         | inl e => inl (mkExc PyException
                               ("Error in 'ask' method: " ++ exc_str e))
         end)).
Proof.
  intros Hc Hq asked. split; [|split].
  - intros w' e Hllm. unfold ask, try_except, bind, raise, ret.
    rewrite (connect_when_connected r Hc).
    rewrite (statements_when_cached table_names r Hq).
    rewrite (sql_query_client_raises _ _ r Hllm). reflexivity.
  - intros w' v Hllm Hv. unfold ask, try_except, bind, raise, ret.
    rewrite (connect_when_connected r Hc).
    rewrite (statements_when_cached table_names r Hq).
    rewrite (sql_query_falsy _ _ r Hllm Hv). reflexivity.
  - intros w' w'' s outcome Hllm Hs Hexec.
    unfold ask, try_except, bind, raise, ret, call.
    rewrite (connect_when_connected r Hc).
    rewrite (statements_when_cached table_names r Hq).
    rewrite (sql_query_generated _ _ r Hllm Hs). cbn [world self calls].
    rewrite Hexec. unfold asked. rewrite <- app_assoc.
    destruct outcome as [e|result_df]; reflexivity.
Qed.

(** X19. [ask] reopens a closed connection by itself: on a disconnected
    orchestrator the first thing it does is call the connector's
    [connect], even when the statements are already cached. *)
Theorem ask_reconnects
        (question : option string) (table_names : option (list string))
        (r : Run W) :
  connected (self r) = false ->
  exists rest,
    calls (fst (ask question table_names r))
    = (calls r ++ ConnectorConnect :: rest)%list.
Proof.
  intros Hc.
  destruct (connect r) as [r1 res] eqn:H1.
  destruct (ask_extends_connect question table_names r H1) as [rest Hrest].
  rewrite Hrest. revert H1.
  unfold connect, try_except, bind, call, set_connected, logger, raise,
    record_call.
  rewrite Hc. cbn [negb].
  destruct (connector_connect (world r)) as [w' [e|u]]; intros [= <- _];
    cbn [calls]; rewrite <- !app_assoc; eexists; reflexivity.
Qed.

End AskMore.

(** ** Further runs on the scripted collaborators *)

Lemma connect_then_disconnect_restores_witness :
  (connect ;; disconnect)%py (__init__ mock_working)
  = ({| self := {| connected := false; all_table_queries := None |};
        world := mock_working;
        calls := [LoggerCall INFO "logger initialized in Pipable";
                  ConnectorConnect; ConnectorDisconnect] |}, inr tt).
Proof.
  exact (@connect_then_disconnect_restores
           Mock mock_connector (__init__ mock_working) mock_working mock_working
           tt tt eq_refl eq_refl eq_refl).
Defined.

Lemma cache_survives_reconnections_witness :
  let r := fst (run_ops [CallDisconnect; CallConnect] warm_run) in
  all_table_queries (self warm_run)
  = Some ["CREATE TABLE employees (id int, salary numeric);"] /\
  _generate_create_table_statements (Some ["orders"]) r
  = (r, inr ["CREATE TABLE employees (id int, salary numeric);"]).
Proof.
  intros r.
  assert (H : all_table_queries (self warm_run)
              = Some ["CREATE TABLE employees (id int, salary numeric);"])
    by reflexivity.
  split; [exact H|].
  exact (@cache_survives_reconnections
           Mock mock_connector [CallDisconnect; CallConnect] warm_run
           ["CREATE TABLE employees (id int, salary numeric);"]
           (Some ["orders"]) H).
Defined.

Lemma failed_transition_is_attempted_again_witness :
  let r := __init__ mock_refusing in
  let r1 := fst (connect r) in
  connect r = (r1, inl (mkExc ConnectionError "Failed to connect to the database."))
  /\ exists rest, calls (fst (connect r1))
                  = (calls r1 ++ ConnectorConnect :: rest)%list.
Proof.
  intros r r1.
  assert (H : connect r
              = (r1, inl (mkExc ConnectionError
                                "Failed to connect to the database.")))
    by reflexivity.
  split; [exact H|].
  exact (proj1 (@failed_transition_is_attempted_again
                  Mock mock_connector r r1 _) H).
Defined.

Lemma failed_build_is_not_cached_witness :
  let r := __init__ mock_no_catalog in
  let r1 := fst (_generate_create_table_statements None r) in
  let e := mkExc ValueError "Error generating CREATE TABLE statements." in
  _generate_create_table_statements None r = (r1, inl e) /\
  self r1 = self r /\
  exists rest,
    calls (fst (_generate_create_table_statements (Some ["orders"]) r1))
    = (calls r1 ++
       ConnectorExecuteQuery (column_info_query (Some ["orders"])) :: rest)%list.
Proof.
  intros r r1 e.
  assert (H : _generate_create_table_statements None r = (r1, inl e))
    by reflexivity.
  destruct (@failed_build_is_not_cached Mock mock_connector None r r1 e H)
    as (_ & Hs & Hnext).
  split; [exact H|]. split; [exact Hs|]. exact (Hnext (Some ["orders"])).
Defined.

Lemma frame_without_expected_columns_is_rejected_witness :
  index_of "table_name" (df_columns one_cell) = None /\
  snd (_generate_create_table_statements None (__init__ mock_wrong_frame))
  = inl (mkExc ValueError "Error generating CREATE TABLE statements.").
Proof.
  assert (H : index_of "table_name" (df_columns one_cell) = None) by reflexivity.
  split; [exact H|].
  destruct (@frame_without_expected_columns_is_rejected
              Mock mock_connector None (__init__ mock_wrong_frame)
              {| mock_connect := inr tt; mock_disconnect := inr tt;
                 mock_replies := []; mock_text := inr (Some "SELECT 1;") |}
              one_cell eq_refl eq_refl (or_introl H))
    as [detail Hrun].
  rewrite Hrun. reflexivity.
Defined.

Lemma one_statement_per_table_witness :
  shop_rows <> [] /\
  exists tables,
    create_table_statements (catalog_frame shop_rows)
    = inr (map (fun t =>
                  "CREATE TABLE " ++ t ++ " (" ++
                  join ", " (map (fun row => row_column row ++ " " ++ row_type row)
                                 (filter (fun row => String.eqb (row_table row) t)
                                         shop_rows)) ++ ");")
               tables) /\
    strictly_sorted tables /\ NoDup tables /\
    (forall t, In t tables <-> In t (map row_table shop_rows)).
Proof.
  assert (H : shop_rows <> []) by discriminate.
  split; [exact H|]. exact (one_statement_per_table H).
Defined.

Lemma ask_returns_the_query_result_witness :
  " SELECT AVG(salary) FROM employees; " <> "" /\
  snd (ask (Some "average salary") None (__init__ mock_working)) = inr one_cell.
Proof.
  assert (Hs : " SELECT AVG(salary) FROM employees; " <> "") by discriminate.
  split; [exact Hs|].
  pose (r := __init__ mock_working).
  pose (r1 := fst (connect r)).
  pose (r2 := fst (_generate_create_table_statements None r1)).
  destruct (@ask_returns_the_query_result
              Mock mock_connector mock_llm (Some "average salary") None
              r r1 r2 tt ["CREATE TABLE employees (id int, salary numeric);"]
              (world r2)
              {| mock_connect := inr tt; mock_disconnect := inr tt;
                 mock_replies := [];
                 mock_text := inr (Some " SELECT AVG(salary) FROM employees; ") |}
              " SELECT AVG(salary) FROM employees; " one_cell
              eq_refl eq_refl eq_refl Hs eq_refl)
    as (Hask & _ & _).
  fold r. rewrite Hask. reflexivity.
Defined.

Lemma ask_raises_only_generic_exceptions_witness :
  let out := ask (Some "how many users") None (__init__ mock_refusing) in
  let x := mkExc PyException
                 "Error in 'ask' method: Failed to connect to the database." in
  out = (fst out, inl x) /\ exc_kind x = PyException.
Proof.
  intros out x.
  assert (H : out = (fst out, inl x)) by reflexivity.
  split; [exact H|].
  exact (proj1 (@ask_raises_only_generic_exceptions
                  Mock mock_connector mock_llm (Some "how many users") None
                  (__init__ mock_refusing) (fst out) x H)).
Defined.

Lemma ask_hides_connector_details_witness :
  snd (ask (Some "how many users") None (__init__ mock_refusing))
  = inl (mkExc PyException
               "Error in 'ask' method: Failed to connect to the database.") /\
  snd (ask (Some "how many users") None (__init__ mock_no_catalog))
  = inl (mkExc PyException
               "Error in 'ask' method: Error generating CREATE TABLE statements.").
Proof.
  split.
  - exact (proj1 (@ask_hides_connector_details
                    Mock mock_connector mock_llm (Some "how many users") None
                    (__init__ mock_refusing))
                 mock_refusing
                 (mkExc (OtherError "OperationalError") "connection refused")
                 eq_refl eq_refl).
  - exact (proj2 (@ask_hides_connector_details
                    Mock mock_connector mock_llm (Some "how many users") None
                    (__init__ mock_no_catalog))
                 (fst (connect (__init__ mock_no_catalog))) tt
                 {| mock_connect := inr tt; mock_disconnect := inr tt;
                    mock_replies := []; mock_text := inr (Some "SELECT 1;") |}
                 (mkExc (OtherError "ProgrammingError")
                        "permission denied for information_schema")
                 eq_refl eq_refl eq_refl).
Defined.

Lemma ask_llm_failure_witness :
  snd (ask (Some "how many users") None (__init__ mock_llm_down))
  = inl (mkExc PyException "Error in 'ask' method: 503 Service Unavailable") /\
  connected (self (fst (ask (Some "how many users") None
                            (__init__ mock_llm_down)))) = true.
Proof.
  pose (r := __init__ mock_llm_down).
  pose (r1 := fst (connect r)).
  pose (r2 := fst (_generate_create_table_statements None r1)).
  destruct (@ask_llm_failure
              Mock mock_connector mock_llm (Some "how many users") None
              r r1 r2 tt ["CREATE TABLE users (id integer, name text);"]
              (world r2) (mkExc (OtherError "HTTPError") "503 Service Unavailable")
              eq_refl eq_refl eq_refl)
    as (Hask & Hc & _).
  fold r. rewrite Hask. split; [reflexivity | exact Hc].
Defined.

Lemma ask_keeps_connection_and_cache_witness :
  connected (self warm_run) = true /\
  connected (self (fst (ask (Some "head count") (Some ["orders"]) warm_run)))
  = true /\
  all_table_queries
    (self (fst (ask (Some "head count") (Some ["orders"]) warm_run)))
  = Some ["CREATE TABLE employees (id int, salary numeric);"].
Proof.
  assert (Hc : connected (self warm_run) = true) by reflexivity.
  destruct (@ask_keeps_connection_and_cache
              Mock mock_connector mock_llm (Some "head count")
              (Some ["orders"]) warm_run) as [Hconn Hcache].
  split; [exact Hc|]. split; [exact (Hconn Hc)|].
  exact (Hcache ["CREATE TABLE employees (id int, salary numeric);"] eq_refl).
Defined.

Lemma ask_ignores_table_names_once_cached_witness :
  all_table_queries (self warm_run)
  = Some ["CREATE TABLE employees (id int, salary numeric);"] /\
  ask (Some "head count") (Some ["orders"]) warm_run
  = ask (Some "head count") None warm_run.
Proof.
  assert (H : all_table_queries (self warm_run)
              = Some ["CREATE TABLE employees (id int, salary numeric);"])
    by reflexivity.
  split; [exact H|].
  exact (@ask_ignores_table_names_once_cached
           Mock mock_connector mock_llm (Some "head count")
           (Some ["orders"]) None warm_run _ H).
Defined.

Lemma ask_executes_empty_sql_on_blank_text_witness :
  all_space "   " = true /\
  exists before,
    calls (fst (ask (Some "how many users") None (__init__ mock_blank)))
    = (before ++ [ConnectorExecuteQuery ""])%list.
Proof.
  assert (Hsp : all_space "   " = true) by reflexivity.
  assert (Hs : "   " <> "") by discriminate.
  split; [exact Hsp|].
  pose (r := __init__ mock_blank).
  pose (r1 := fst (connect r)).
  pose (r2 := fst (_generate_create_table_statements None r1)).
  pose proof (@ask_executes_empty_sql_on_blank_text
                Mock mock_connector mock_llm (Some "how many users") None
                r r1 r2 tt ["CREATE TABLE users (id integer, name text);"]
                (world r2) "   " eq_refl eq_refl eq_refl Hs Hsp) as Hcalls.
  exists (calls r2 ++
          [LoggerCall INFO "generating query using llm";
           LlmGenerateText "CREATE TABLE users (id integer, name text);"
                           (Some "how many users")])%list.
  fold r. rewrite Hcalls. reflexivity.
Defined.

Lemma first_ask_connects_then_queries_catalog_witness :
  exists rest,
    calls (fst (ask (Some "average salary") (Some ["employees"])
                    (__init__ mock_working)))
    = ([LoggerCall INFO "logger initialized in Pipable";
        ConnectorConnect;
        ConnectorExecuteQuery (column_info_query (Some ["employees"]))]
         ++ rest)%list.
Proof.
  exact (@first_ask_connects_then_queries_catalog
           Mock mock_connector mock_llm (Some "average salary")
           (Some ["employees"]) mock_working mock_working tt eq_refl).
Defined.

Lemma warm_ask_goes_straight_to_the_model_witness :
  connected (self warm_run) = true /\
  all_table_queries (self warm_run)
  = Some ["CREATE TABLE employees (id int, salary numeric);"] /\
  " SELECT AVG(salary) FROM employees; " <> "" /\
  ask (Some "head count") (Some ["orders"]) warm_run
  = ({| self := self warm_run; world := world warm_run;
        calls := (calls warm_run ++
                  [LoggerCall INFO "generating query using llm";
                   LlmGenerateText
                     "CREATE TABLE employees (id int, salary numeric);"
                     (Some "head count");
                   ConnectorExecuteQuery
                     "SELECT AVG(salary) FROM employees;"])%list |},
     inl (mkExc PyException "Error in 'ask' method: no reply scripted")).
Proof.
  assert (Hc : connected (self warm_run) = true) by reflexivity.
  assert (Hq : all_table_queries (self warm_run)
               = Some ["CREATE TABLE employees (id int, salary numeric);"])
    by reflexivity.
  assert (Hs : " SELECT AVG(salary) FROM employees; " <> "") by discriminate.
  split; [exact Hc|]. split; [exact Hq|]. split; [exact Hs|].
  exact (proj2 (proj2 (@warm_ask_goes_straight_to_the_model
                         Mock mock_connector mock_llm (Some "head count")
                         (Some ["orders"]) warm_run
                         ["CREATE TABLE employees (id int, salary numeric);"]
                         Hc Hq))
               (world warm_run) (world warm_run)
               " SELECT AVG(salary) FROM employees; "
               (inl (mkExc (OtherError "ProgrammingError") "no reply scripted"))
               eq_refl Hs eq_refl).
Defined.

Lemma ask_reconnects_witness :
  let r := fst (disconnect warm_run) in
  connected (self r) = false /\
  exists rest,
    calls (fst (ask (Some "head count") None r))
    = (calls r ++ ConnectorConnect :: rest)%list.
Proof.
  intros r.
  assert (Hc : connected (self r) = false) by reflexivity.
  split; [exact Hc|].
  exact (@ask_reconnects Mock mock_connector mock_llm (Some "head count") None
                         r Hc).
Defined.

(** ** The table-name filter *)

(** X20. The builder puts the table names between quotes as they are,
    without escaping: a single name that contains [','] yields the very
    filter, and so the very catalog query, that the two names on either
    side of it would yield. *)
Theorem table_names_are_not_escaped (a b : string) (others : list string) :
  where_clause (Some ((a ++ "','" ++ b) :: others))
  = where_clause (Some (a :: b :: others)) /\
  column_info_query (Some ((a ++ "','" ++ b) :: others))
  = column_info_query (Some (a :: b :: others)).
Proof.
  assert (H : where_clause (Some ((a ++ "','" ++ b) :: others))
              = where_clause (Some (a :: b :: others))).
  { unfold where_clause. f_equal. f_equal.
    destruct others as [|c others]; cbn [map join];
      rewrite !append_assoc; reflexivity. }
  split; [exact H|]. unfold column_info_query. rewrite H. reflexivity.
Qed.

(** ** The catalog query that returns no row *)

(** C10, on the code as it is. The guard of the cache is the is-not-None
    test, and what a build stores is what every later call returns, for
    any filter and with no catalog query.  But when the catalog query
    returns its three columns and no row, what the build stores is not the
    empty list: the loop over [items()] then runs over the columns of the
    empty grouped frame, so the list that is cached, and served from then
    on, holds [CREATE TABLE] statements named after column labels. *)
Theorem zero_rows_cache_statements_of_column_labels
        {W : Type} {database_connector : DatabaseConnectorInterface W}
        (table_names table_names2 : option (list string))
        (r : Run W) (w' : W) :
  all_table_queries (self r) = None ->
  connector_execute_query (column_info_query table_names) (world r)
  = (w', inr (catalog_frame [])) ->
  exists queries,
    let r1 := {| self := {| connected := connected (self r);
                            all_table_queries := Some queries |};
                 world := w';
                 calls := (calls r ++
                           [ConnectorExecuteQuery
                              (column_info_query table_names)])%list |} in
    _generate_create_table_statements table_names r = (r1, inr queries) /\
    queries <> [] /\
    (forall q, In q queries ->
               exists label body,
                 In label (df_columns (catalog_frame [])) /\
                 q = "CREATE TABLE " ++ label ++ " (" ++ body ++ ");") /\
    _generate_create_table_statements table_names2 r1 = (r1, inr queries).
Proof.
  intros Hnone Hq.
  destruct (create_table_statements (catalog_frame [])) as [e|queries] eqn:Hs;
    [discriminate Hs|].
  exists queries. cbn zeta.
  split; [apply (statements_built table_names r Hnone Hq Hs)|].
  injection Hs as <-.
  split; [discriminate|]. split.
  - intros q [<- | [<- | [<- | []]]].
    + exists "table_name", (empty_series_repr "table_name").
      split; [simpl; auto | reflexivity].
    + exists "column_name", (empty_series_repr "column_name").
      split; [simpl; auto | reflexivity].
    + exists "data_type", (empty_series_repr "data_type").
      split; [simpl; auto | reflexivity].
  - apply statements_when_cached. reflexivity.
Qed.

Lemma zero_rows_cache_statements_of_column_labels_witness :
  let r := __init__ mock_empty_catalog in
  all_table_queries (self r) = None /\
  snd (connector_execute_query (column_info_query None) (world r))
  = inr (catalog_frame []) /\
  all_table_queries (self (fst (_generate_create_table_statements None r)))
  <> Some [].
Proof.
  intros r.
  assert (Hnone : all_table_queries (self r) = None) by reflexivity.
  split; [exact Hnone|]. split; [reflexivity|].
  destruct (@zero_rows_cache_statements_of_column_labels
              Mock mock_connector None (Some ["orders"]) r
              {| mock_connect := inr tt; mock_disconnect := inr tt;
                 mock_replies := []; mock_text := inr (Some "SELECT 1;") |}
              Hnone eq_refl)
    as (queries & Hrun & Hne & _ & _).
  rewrite Hrun. cbn [fst self all_table_queries].
  intros Heq. apply Hne. injection Heq as ->. reflexivity.
Defined.

(** A frame with two columns labelled [table_name] cannot be grouped. *)
Example repeated_key_label_is_rejected :
  create_table_statements
    {| df_columns := ["table_name"; "table_name"; "column_name"; "data_type"];
       df_rows := [["users"; "users"; "id"; "integer"]] |}
  = inl (mkExc ValueError "Grouper for 'table_name' not 1-dimensional").
Proof. reflexivity. Qed.
